(** * Gemini Personal Chat: the chat component, the Gemini service and the
      markdown pipe, embedded as pure functions over an explicit state.

    Sources embedded here:
    - [src/models.ts]: ChatMessage, ChatSession, FileMetadata;
    - the application component (AppComponent): the session store, the file
      metadata extractor, the send orchestrator and the history builder;
    - the Gemini service (GeminiService.generateContentStream);
    - [src/pipes/markdown.pipe.ts]: MarkdownPipe.transform. *)

From Stdlib Require Import Ascii String DecimalString.
From Stdlib Require Import List Bool Arith NArith ZArith Lia.
Import ListNotations.

(** ** JavaScript strings and the string primitives the sources call *)

Module JS.

(** A JavaScript string is a sequence of UTF-16 code units; [length] is the
    number of code units, as [String.prototype.length] is. *)
Definition jsstring := list N.

(** The code units of an ASCII literal. *)
Definition lit (s : string) : jsstring :=
  map N_of_ascii (list_ascii_of_string s).

(** [String(n)] for a non-negative integer. *)
Definition ofNumber (n : N) : jsstring :=
  lit (NilZero.string_of_uint (N.to_uint n)).

Fixpoint eqb (a b : jsstring) : bool :=
  match a, b with
  | [], [] => true
  | x :: a', y :: b' => N.eqb x y && eqb a' b'
  | _, _ => false
  end.

(** A string is truthy exactly when it is not empty. *)
Definition truthy (s : jsstring) : bool :=
  match s with [] => false | _ :: _ => true end.

(** [ToString] of a value that is a string or [undefined] ([None]), as
    the [+] of a string applies it to its other operand. *)
Definition toString (v : option jsstring) : jsstring :=
  match v with
  | Some s => s
  | None => lit "undefined"
  end.

(** ECMAScript WhiteSpace and LineTerminator code points: what [trim] strips
    and what the regular expression class [\s] matches. *)
Definition isWhiteSpace (c : N) : bool :=
  ((9 <=? c) && (c <=? 13) || (c =? 32) || (c =? 160) || (c =? 5760)
   || (8192 <=? c) && (c <=? 8202) || (c =? 8232) || (c =? 8233)
   || (c =? 8239) || (c =? 8287) || (c =? 12288) || (c =? 65279))%N.

Fixpoint dropWhile (p : N -> bool) (s : jsstring) : jsstring :=
  match s with
  | [] => []
  | c :: r => if p c then dropWhile p r else s
  end.

Definition trimStart (s : jsstring) : jsstring := dropWhile isWhiteSpace s.
Definition trimEnd (s : jsstring) : jsstring :=
  rev (dropWhile isWhiteSpace (rev s)).
Definition trim (s : jsstring) : jsstring := trimEnd (trimStart s).

(** [s.substring(0, n)] for a non-negative [n]. *)
Definition substring0 (n : nat) (s : jsstring) : jsstring := firstn n s.

Fixpoint startsWith (s prefix : jsstring) : bool :=
  match prefix, s with
  | [], _ => true
  | p :: prefix', c :: s' => N.eqb c p && startsWith s' prefix'
  | _ :: _, [] => false
  end.

(** [s.split(/\s+/)]: the scan of String.prototype.split specialised to the
    pattern [\s+].  A match at a position succeeds exactly on a white space
    code unit and extends over the whole run; the piece collected since the
    previous match (possibly empty) is pushed at the start of each run, and
    the rest after the last run is pushed at the end.  [cur] is the piece
    being collected and [inRun] tells that the scan is inside a run. *)
Fixpoint splitWsFrom (cur : jsstring) (inRun : bool) (s : jsstring)
  : list jsstring :=
  match s with
  | [] => [cur]
  | c :: r =>
      if isWhiteSpace c then
        if inRun then splitWsFrom [] true r
        else cur :: splitWsFrom [] true r
      else splitWsFrom (cur ++ [c]) false r
  end.

Definition splitWs (s : jsstring) : list jsstring := splitWsFrom [] false s.

(** [s.split(sep)] for a one code unit separator. *)
Fixpoint splitCharFrom (sep : N) (cur : jsstring) (s : jsstring)
  : list jsstring :=
  match s with
  | [] => [cur]
  | c :: r =>
      if N.eqb c sep then cur :: splitCharFrom sep [] r
      else splitCharFrom sep (cur ++ [c]) r
  end.

Definition splitChar (sep : N) (s : jsstring) : list jsstring :=
  splitCharFrom sep [] s.

(** [arr.slice(start, end)] with the relative index rules of
    Array.prototype.slice: a negative index counts from the end and both
    bounds are clamped to the array. *)
Definition relIndex (len i : Z) : Z :=
  if (i <? 0)%Z then Z.max (len + i) 0 else Z.min i len.

Definition slice {A} (start end_ : Z) (l : list A) : list A :=
  let len := Z.of_nat (length l) in
  let k := relIndex len start in
  let final := relIndex len end_ in
  firstn (Z.to_nat (Z.max (final - k) 0)) (skipn (Z.to_nat k) l).

(** The word counting expression of processFile:
    [textContent.trim().split(/\s+/).filter(Boolean).length]. *)
Definition wordCountOf (textContent : jsstring) : nat :=
  length (filter truthy (splitWs (trim textContent))).

(** The count the specification words describe: the number of maximal
    non-empty runs of non white space code units.  A run starts at a non
    white space code unit that is first in the string or follows a white
    space one; [prevWs] tells that the previous code unit ended a run. *)
Fixpoint countTokens (prevWs : bool) (s : jsstring) : nat :=
  match s with
  | [] => 0
  | c :: r =>
      if isWhiteSpace c then countTokens true r
      else (if prevWs then 1 else 0) + countTokens false r
  end.

Definition tokenCount (s : jsstring) : nat := countTokens true s.

End JS.

Import JS.

(** ** The data model of [src/models.ts] *)

Inductive Role := user | ai.

Module FileMetadata.
Record t := mk {
  name : jsstring;
  size : N;                        (* in bytes *)
  type : jsstring;
  wordCount : nat;
  charCount : nat;
  base64Content : option jsstring; (* optional field *)
  pageCount : option N             (* optional field *)
}.
End FileMetadata.

Module ChatMessage.
Record t := mk {
  role : Role;
  text : jsstring;
  fileInfo : option FileMetadata.t
}.
End ChatMessage.

Module ChatSession.
Record t := mk {
  id : jsstring;
  title : jsstring;
  messages : list ChatMessage.t;
  createdAt : N
}.
End ChatSession.

(** The request payload of the model API: a [Content] is a role name and an
    ordered array of parts, a part being [{ text }] or
    [{ inlineData: { mimeType, data } }]. *)
Inductive Part :=
| TextPart (text : jsstring)
| InlineDataPart (mimeType data : jsstring).

Module Content.
Record t := mk {
  role : jsstring;
  parts : list Part
}.
End Content.

(** What awaiting a promise gives: the value it resolves to, or a
    rejection, which the [await] throws. *)
Inductive Awaited (A : Type) :=
| Resolved (value : A)
| Rejected.

Arguments Resolved {A} value.
Arguments Rejected {A}.

(** A browser [File] as the component reads it: its attributes and what the
    reads the component awaits give. *)
Module File.
Record t := mk {
  name : jsstring;
  size : N;
  type : jsstring;
  text : Awaited jsstring;    (* [file.text()] *)
  dataURL : Awaited jsstring; (* [readAsDataURL]: [reader.result] on load,
                                 rejection on [reader.onerror] *)
  numPages : option N         (* [pdf.numPages]; [None] when reading the
                                 buffer or pdf.js throws *)
}.
End File.

(** ** The Gemini service *)

Module GeminiService.

(** [generateContentStream(history, prompt, file)]: the [contents] of the
    request it sends. *)
Definition requestContents (history : list Content.t) (prompt : jsstring)
    (file : option FileMetadata.t) : list Content.t :=
  let parts := [TextPart prompt] in
  let parts :=
    match file with
    | Some f =>
        match FileMetadata.base64Content f with
        | Some data =>
            if truthy data
            then InlineDataPart (FileMetadata.type f) data :: parts
            else parts
        | None => parts
        end
    | None => parts
    end in
  history ++ [Content.mk (lit "user") parts].

End GeminiService.

(** ** The markdown pipe *)

Module MarkdownPipe.

(** What [transform] returns: a plain string, or the wrapper that
    [DomSanitizer.bypassSecurityTrustHtml] builds, which holds the markup
    unchanged and tells the view to insert it without sanitizing it. *)
Inductive SafeHtml :=
| PlainString (s : jsstring)
| TrustedHtml (markup : jsstring).

Definition bypassSecurityTrustHtml (markup : jsstring) : SafeHtml :=
  TrustedHtml markup.

Section Transform.
(** [marked.parse] of the third-party parser; [None] when it throws. *)
Variable marked_parse : jsstring -> option jsstring.

(** [transform(value)]; [None] stands for [null] and [undefined]. *)
Definition transform (value : option jsstring) : SafeHtml :=
  match value with
  | None => PlainString []
  | Some v =>
      if negb (truthy (trim v)) then PlainString []
      else
        match marked_parse v with
        | Some rawHtml => bypassSecurityTrustHtml rawHtml
        | None => PlainString []
        end
  end.
End Transform.

End MarkdownPipe.

(** ** The application component *)

Module App.

(** The state signals of the component. *)
Record State := mkState {
  chatSessions : list ChatSession.t;
  activeSessionId : option jsstring;
  isLoading : bool;
  currentPrompt : jsstring;
  attachedFile : option File.t;
  fileMetadata : option FileMetadata.t;
  error : option jsstring
}.

Definition initial : State :=
  mkState [] None false [] None None None.

Definition set_chatSessions (v : list ChatSession.t) (st : State) : State :=
  mkState v (activeSessionId st) (isLoading st) (currentPrompt st)
          (attachedFile st) (fileMetadata st) (error st).
Definition set_activeSessionId (v : option jsstring) (st : State) : State :=
  mkState (chatSessions st) v (isLoading st) (currentPrompt st)
          (attachedFile st) (fileMetadata st) (error st).
Definition set_isLoading (v : bool) (st : State) : State :=
  mkState (chatSessions st) (activeSessionId st) v (currentPrompt st)
          (attachedFile st) (fileMetadata st) (error st).
Definition set_currentPrompt (v : jsstring) (st : State) : State :=
  mkState (chatSessions st) (activeSessionId st) (isLoading st) v
          (attachedFile st) (fileMetadata st) (error st).
Definition set_attachedFile (v : option File.t) (st : State) : State :=
  mkState (chatSessions st) (activeSessionId st) (isLoading st)
          (currentPrompt st) v (fileMetadata st) (error st).
Definition set_fileMetadata (v : option FileMetadata.t) (st : State) : State :=
  mkState (chatSessions st) (activeSessionId st) (isLoading st)
          (currentPrompt st) (attachedFile st) v (error st).
Definition set_error (v : option jsstring) (st : State) : State :=
  mkState (chatSessions st) (activeSessionId st) (isLoading st)
          (currentPrompt st) (attachedFile st) (fileMetadata st) v.

(** The computed signal [activeSession]. *)
Definition activeSession (st : State) : option ChatSession.t :=
  match activeSessionId st with
  | None => None
  | Some id =>
      if negb (truthy id) then None
      else find (fun s => eqb (ChatSession.id s) id) (chatSessions st)
  end.

Definition removeAttachment (st : State) : State :=
  set_fileMetadata None (set_attachedFile None st).

Definition resetInput (st : State) : State :=
  removeAttachment (set_currentPrompt [] st).

(** [startNewChat()]; [now] is what [Date.now()] returns and [created] the
    time of [new Date()]. *)
Definition startNewChat (now created : N) (st : State) : State :=
  let newSession :=
    ChatSession.mk (lit "chat_" ++ ofNumber now) (lit "New Conversation")
                   [] created in
  let st := set_chatSessions (newSession :: chatSessions st) st in
  let st := set_activeSessionId (Some (ChatSession.id newSession)) st in
  resetInput st.

Definition selectChat (id : jsstring) (st : State) : State :=
  set_activeSessionId (Some id) st.

Definition deleteChat (id : jsstring) (st : State) : State :=
  let st :=
    set_chatSessions
      (filter (fun session => negb (eqb (ChatSession.id session) id))
              (chatSessions st)) st in
  match activeSessionId st with
  | Some a =>
      if eqb a id then
        set_activeSessionId
          (match chatSessions st with
           | s :: _ => Some (ChatSession.id s)
           | [] => None
           end) st
      else st
  | None => st
  end.

Definition MAX_FILE_SIZE : N := 5 * 1024 * 1024.

(** [fileToBase64]: the promise resolves, on load, to
    [reader.result.split(',')[1]], which is [undefined] ([None]) when the
    data URL has no comma, and rejects on a read error. *)
Definition fileToBase64 (file : File.t) : Awaited (option jsstring) :=
  match File.dataURL file with
  | Resolved result => Resolved (nth_error (splitChar 44 result) 1)
  | Rejected => Rejected
  end.

(** [processFile(file)]: the state its promise leaves.  A rejected read
    ([fileToBase64], or [file.text()] for a text file) is not caught: the
    promise rejects before the only [fileMetadata.set], with the signals
    as they were.  A failure of the PDF reads is caught. *)
Definition processFile (file : File.t) (st : State) : State :=
  match fileToBase64 file with
  | Rejected => st
  | Resolved base64Content =>
      let store (wordCount charCount : nat) (pageCount : option N)
                (st : State) :=
        set_fileMetadata
          (Some (FileMetadata.mk (File.name file) (File.size file)
                                 (File.type file) wordCount charCount
                                 base64Content pageCount)) st in
      if startsWith (File.type file) (lit "text/") then
        match File.text file with
        | Rejected => st
        | Resolved textContent =>
            store (wordCountOf textContent) (length textContent) None st
        end
      else if eqb (File.type file) (lit "application/pdf") then
        match File.numPages file with
        | Some numPages => store 0 0 (Some numPages) st
        | None =>
            store 0 0 None
              (set_error
                 (Some (lit "Could not read page count from the PDF file."))
                 st)
        end
      else store 0 0 None st
  end.

(** Whether the promise of [processFile] rejects. *)
Definition processFile_rejects (file : File.t) : bool :=
  match fileToBase64 file with
  | Rejected => true
  | Resolved _ =>
      if startsWith (File.type file) (lit "text/") then
        match File.text file with
        | Rejected => true
        | Resolved _ => false
        end
      else false
  end.

(** [handleFileChange(event)]; [files] is [event.target.files].  The state
    its promise leaves; it rejects when [processFile] does, the new file
    then being attached with the metadata left as it was. *)
Definition handleFileChange (files : list File.t) (st : State) : State :=
  match files with
  | [] => st
  | file :: _ =>
      if (MAX_FILE_SIZE <? File.size file)%N then
        let st :=
          set_error
            (Some (lit "File is too large. Max size is "
                   ++ ofNumber (MAX_FILE_SIZE / 1024 / 1024) ++ lit "MB."))
            st in
        set_attachedFile None st
      else
        let st := set_attachedFile (Some file) st in
        let st := set_error None st in
        processFile file st
  end.

(** The callback of [buildHistory]: the turn of one message. *)
Definition turnOf (msg : ChatMessage.t) : Content.t :=
  let parts := [TextPart (ChatMessage.text msg)] in
  let parts :=
    match ChatMessage.role msg, ChatMessage.fileInfo msg with
    | user, Some info =>
        match FileMetadata.base64Content info with
        | Some data =>
            if truthy data
            then InlineDataPart (FileMetadata.type info) data :: parts
            else parts
        | None => parts
        end
    | _, _ => parts
    end in
  Content.mk
    (match ChatMessage.role msg with ai => lit "model" | user => lit "user" end)
    parts.

Definition buildHistory (messages : list ChatMessage.t) : list Content.t :=
  map turnOf (slice 0 (-2) messages).

(** *** The send orchestrator

    [sendMessage] mutates the session object it found in the store
    ([currentSession]) and the placeholder object it pushed ([aiMessage]) in
    place.  The store holds the same session object, so every such mutation
    shows in the store at once; from the first [chatSessions.update] of the
    call on, every store entry with the session's id is that object.  The
    model keeps the value of [currentSession] and writes it back by id at
    each mutation. *)

Definition set_title (v : jsstring) (s : ChatSession.t) : ChatSession.t :=
  ChatSession.mk (ChatSession.id s) v (ChatSession.messages s)
                 (ChatSession.createdAt s).
Definition set_messages (v : list ChatMessage.t) (s : ChatSession.t)
  : ChatSession.t :=
  ChatSession.mk (ChatSession.id s) (ChatSession.title s) v
                 (ChatSession.createdAt s).

(** [sessions.map(s => s.id === currentSession.id ? currentSession : s)] *)
Definition writeBack (currentSession : ChatSession.t)
    (sessions : list ChatSession.t) : list ChatSession.t :=
  map (fun s => if eqb (ChatSession.id s) (ChatSession.id currentSession)
                then currentSession else s) sessions.

(** [prompt.substring(0, 30) || fileMeta?.name || 'New Conversation'] *)
Definition firstTitle (prompt : jsstring) (fileMeta : option FileMetadata.t)
  : jsstring :=
  let head := substring0 30 prompt in
  if truthy head then head
  else
    match fileMeta with
    | Some f =>
        if truthy (FileMetadata.name f) then FileMetadata.name f
        else lit "New Conversation"
    | None => lit "New Conversation"
    end.

(** The placeholder is the last message of [currentSession] from its push
    to the end of the call; a mutation of [aiMessage] is a mutation of that
    entry. *)
Definition withAiMessage (aiMessage : ChatMessage.t) (s : ChatSession.t)
  : ChatSession.t :=
  set_messages (removelast (ChatSession.messages s) ++ [aiMessage]) s.

Definition set_text (v : jsstring) (m : ChatMessage.t) : ChatMessage.t :=
  ChatMessage.mk (ChatMessage.role m) v (ChatMessage.fileInfo m).

(** What the awaited streaming call does: the [text] of the chunks it
    delivers, in arrival order ([None] for a chunk whose [text] is
    [undefined], as the SDK types it [string | undefined]), and whether it
    then throws (from the call itself when no chunk came, from the
    iteration otherwise) or ends. *)
Record Stream := mkStream {
  fragments : list (option jsstring);
  throws : bool
}.

(** The locals of a running [sendMessage]. *)
Record Sending := mkSending {
  currentSession : ChatSession.t;
  aiMessage : ChatMessage.t;
  prompt : jsstring;
  fileMeta : option FileMetadata.t
}.

(** The part of [sendMessage] before the [try]: where the call stands when
    it reaches the streaming call, or the state it returned with. *)
Inductive Started :=
| Returned (st : State)
| Begun (st : State) (loc : Sending).

Definition sendMessage_begin (now created : N) (st : State) : Started :=
  let prompt := trim (currentPrompt st) in
  let fileMeta := fileMetadata st in
  if negb (truthy prompt)
     && negb (match fileMeta with Some _ => true | None => false end)
  then Returned st
  else
    let st := set_isLoading true st in
    let st := set_error None st in
    let st :=
      match activeSession st with
      | Some _ => st
      | None => startNewChat now created st
      end in
    match activeSession st with
    | None =>
        let st :=
          set_error (Some (lit "Could not create or find a chat session."))
                    st in
        Returned (set_isLoading false st)
    | Some currentSession =>
        let userMessage := ChatMessage.mk user prompt fileMeta in
        let currentSession :=
          if Nat.eqb (length (ChatSession.messages currentSession)) 0
          then set_title (firstTitle prompt fileMeta) currentSession
          else currentSession in
        let currentSession :=
          set_messages (ChatSession.messages currentSession ++ [userMessage])
                       currentSession in
        let aiMessage := ChatMessage.mk ai [] None in
        let currentSession :=
          set_messages (ChatSession.messages currentSession ++ [aiMessage])
                       currentSession in
        let st :=
          set_chatSessions (writeBack currentSession (chatSessions st)) st in
        let st := resetInput st in
        Begun st (mkSending currentSession aiMessage prompt fileMeta)
    end.

(** The request the [try] block sends. *)
Definition request (loc : Sending) : list Content.t :=
  let history := buildHistory (ChatSession.messages (currentSession loc)) in
  GeminiService.requestContents history (prompt loc) (fileMeta loc).

(** One iteration of the [for await] loop; [aiMessage.text += chunk.text]
    appends the string the chunk's text converts to. *)
Definition onChunk (chunkText : option jsstring) (p : State * Sending)
  : State * Sending :=
  let (st, loc) := p in
  let aiMessage :=
    set_text (ChatMessage.text (aiMessage loc) ++ toString chunkText)
             (aiMessage loc) in
  let currentSession := withAiMessage aiMessage (currentSession loc) in
  (set_chatSessions (writeBack currentSession (chatSessions st)) st,
   mkSending currentSession aiMessage (prompt loc) (fileMeta loc)).

Definition consume (chunks : list (option jsstring)) (p : State * Sending)
  : State * Sending :=
  fold_left (fun p chunkText => onChunk chunkText p) chunks p.

(** The [catch] block. *)
Definition onError (p : State * Sending) : State * Sending :=
  let (st, loc) := p in
  let st :=
    set_error
      (Some (lit "An error occurred while communicating with the AI. Please check your setup and try again."))
      st in
  let aiMessage :=
    set_text (lit "Sorry, I encountered an error. Please try again.")
             (aiMessage loc) in
  let currentSession := withAiMessage aiMessage (currentSession loc) in
  (set_chatSessions (writeBack currentSession (chatSessions st)) st,
   mkSending currentSession aiMessage (prompt loc) (fileMeta loc)).

(** [sendMessage()], run to its end against one streaming call. *)
Definition sendMessage (now created : N) (stream : Stream) (st : State)
  : State :=
  match sendMessage_begin now created st with
  | Returned st => st
  | Begun st loc =>
      let p := consume (fragments stream) (st, loc) in
      let p := if throws stream then onError p else p in
      set_isLoading false (fst p)
  end.

(** *** Runs of the component *)

(** What reaches the component between two sends on a session: the input
    binding sets the prompt, a file is chosen or removed, and a send runs
    against a streaming call. *)
Inductive Event :=
| SetPrompt (value : jsstring)
| FileChange (files : list File.t)
| RemoveAttachment
| Send (now created : N) (stream : Stream).

Definition step (e : Event) (st : State) : State :=
  match e with
  | SetPrompt value => set_currentPrompt value st
  | FileChange files => handleFileChange files st
  | RemoveAttachment => removeAttachment st
  | Send now created stream => sendMessage now created stream st
  end.

Definition run (events : list Event) (st : State) : State :=
  fold_left (fun st e => step e st) events st.

(** The store is well formed when the active id is none or the id of a
    session of the list. *)
Definition activeValid (st : State) : Prop :=
  match activeSessionId st with
  | None => True
  | Some a => In a (map ChatSession.id (chatSessions st))
  end.

End App.

Import App.

(** * Definitions for the statements: the terms the properties are stated
      with, and sample values *)

Definition notes_txt : File.t :=
  File.mk (lit "notes.txt") 12 (lit "text/plain")
          (Resolved (lit "  two words "))
          (Resolved (lit "data:text/plain;base64,ICB0d28gd29yZHMg")) None.

Definition big_txt : File.t :=
  File.mk (lit "big.txt") 10485760 (lit "text/plain") (Resolved (lit "x"))
          (Resolved (lit "data:text/plain;base64,eA==")) None.

Definition roleName (msg : ChatMessage.t) : jsstring :=
  match ChatMessage.role msg with ai => lit "model" | user => lit "user" end.

Definition firstId (sessions : list ChatSession.t) : option jsstring :=
  match sessions with
  | s :: _ => Some (ChatSession.id s)
  | [] => None
  end.

Definition two_chats : State :=
  mkState [ChatSession.mk (lit "chat_2") (lit "second") [] 2;
           ChatSession.mk (lit "chat_1") (lit "first") [] 1]
          (Some (lit "chat_2")) false [] None None None.

(** A stand-in for the parser: it wraps its input in a paragraph and
    passes the tags through. *)
Definition passthrough_parse (s : jsstring) : option jsstring :=
  Some (lit "<p>" ++ s ++ lit "</p>").

(** The precondition of [sendMessage]: a non-blank prompt or stored file
    metadata. *)
Definition canSend (st : State) : bool :=
  truthy (trim (currentPrompt st))
  || match fileMetadata st with Some _ => true | None => false end.

Definition newSession (now created : N) : ChatSession.t :=
  ChatSession.mk (lit "chat_" ++ ofNumber now) (lit "New Conversation")
                 [] created.

(** The session a send works on: the active one, or the one it creates. *)
Definition sessionFor (now created : N) (st : State) : ChatSession.t :=
  match activeSession st with
  | Some s => s
  | None => newSession now created
  end.

Definition userMessageOf (st : State) : ChatMessage.t :=
  ChatMessage.mk user (trim (currentPrompt st)) (fileMetadata st).

Definition placeholder : ChatMessage.t := ChatMessage.mk ai [] None.

Definition titleAfter (now created : N) (st : State) : jsstring :=
  let s := sessionFor now created st in
  match ChatSession.messages s with
  | [] => firstTitle (trim (currentPrompt st)) (fileMetadata st)
  | _ :: _ => ChatSession.title s
  end.

(** The session as the streaming call finds it. *)
Definition begunSession (now created : N) (st : State) : ChatSession.t :=
  let s := sessionFor now created st in
  ChatSession.mk (ChatSession.id s) (titleAfter now created st)
    (ChatSession.messages s ++ [userMessageOf st; placeholder])
    (ChatSession.createdAt s).

Definition apology : jsstring :=
  lit "Sorry, I encountered an error. Please try again.".

Definition sendError : jsstring :=
  lit "An error occurred while communicating with the AI. Please check your setup and try again.".

(** The text of the placeholder when the call settles. *)
Definition settledText (stream : Stream) : jsstring :=
  if throws stream then apology
  else concat (map toString (fragments stream)).

(** The session when the call settles. *)
Definition settledSession (now created : N) (stream : Stream) (st : State)
  : ChatSession.t :=
  let s := sessionFor now created st in
  ChatSession.mk (ChatSession.id s) (titleAfter now created st)
    (ChatSession.messages s
     ++ [userMessageOf st; ChatMessage.mk ai (settledText stream) None])
    (ChatSession.createdAt s).

Definition hello : State := set_currentPrompt (lit "  Hello ") initial.

Definition later_events : list Event :=
  [SetPrompt (lit "and another question");
   Send 1800 1800 (mkStream [Some (lit "ok")] false);
   FileChange [notes_txt];
   Send 1900 1900 (mkStream [] true)].

Definition notes_info : FileMetadata.t :=
  FileMetadata.mk (lit "notes.txt") 12 (lit "text/plain") 2 12
                  (Some (lit "ICB0d28gd29yZHMg")) None.

Definition notes_message : ChatMessage.t :=
  ChatMessage.mk user (lit "Summarise this") (Some notes_info).

(** A first exchange about an attached text file. *)
Definition with_file : State :=
  sendMessage 1700 1700 (mkStream [Some (lit "Sure")] false)
    (handleFileChange [notes_txt]
       (set_currentPrompt (lit "Summarise this") initial)).

Definition follow_ups : list Event :=
  [SetPrompt (lit "and the second word?");
   Send 1800 1800 (mkStream [Some (lit "words")] false);
   SetPrompt (lit "thanks")].

Definition oversize_after_notes : State :=
  handleFileChange [notes_txt] (set_currentPrompt (lit "Summarise this") initial).

(** The store a send starts from: the list as it is, or with the session
    the send creates in front. *)
Definition baseSessions (now created : N) (st : State)
  : list ChatSession.t :=
  match activeSession st with
  | Some _ => chatSessions st
  | None => newSession now created :: chatSessions st
  end.

(** Everything the view can trigger on the component: the sidebar
    operations and the input events. *)
Inductive Action :=
| NewChat (now created : N)
| SelectChat (id : jsstring)
| DeleteChat (id : jsstring)
| Input (e : Event).

Definition act (a : Action) (st : State) : State :=
  match a with
  | NewChat now created => startNewChat now created st
  | SelectChat id => selectChat id st
  | DeleteChat id => deleteChat id st
  | Input e => step e st
  end.

Definition reach (actions : list Action) (st : State) : State :=
  fold_left (fun st a => act a st) actions st.

(** Optional file metadata within the size limit. *)
Definition withinLimit (f : option FileMetadata.t) : Prop :=
  match f with
  | Some m => (FileMetadata.size m <= MAX_FILE_SIZE)%N
  | None => True
  end.

(** A message list made of exchanges: a user message, then an ai one. *)
Inductive Paired : list ChatMessage.t -> Prop :=
| Paired_nil : Paired []
| Paired_exchange (u a : ChatMessage.t) (rest : list ChatMessage.t) :
    ChatMessage.role u = user ->
    ChatMessage.role a = ai ->
    Paired rest ->
    Paired (u :: a :: rest).

(** A message whose file metadata, if any, is within the limit and sits on
    a user message. *)
Definition messageOk (m : ChatMessage.t) : Prop :=
  withinLimit (ChatMessage.fileInfo m)
  /\ (ChatMessage.role m = ai -> ChatMessage.fileInfo m = None).

Definition sessionOk (s : ChatSession.t) : Prop :=
  Paired (ChatSession.messages s)
  /\ Forall messageOk (ChatSession.messages s).

Definition storeOk (st : State) : Prop :=
  Forall sessionOk (chatSessions st) /\ withinLimit (fileMetadata st).

(** A store in which two sessions have the same id. *)
Definition twin_chats : State :=
  mkState [ChatSession.mk (lit "chat_1") (lit "one") [] 1;
           ChatSession.mk (lit "chat_1") (lit "two") [] 1]
          None false [] None None None.

Definition notComma (c : N) : bool := negb (c =? 44)%N.

Definition report_pdf : File.t :=
  File.mk (lit "report.pdf") 2048 (lit "application/pdf")
          (Resolved (lit "%PDF-1.7"))
          (Resolved (lit "data:application/pdf;base64,JVBERi0xLjc="))
          (Some 3%N).

Definition broken_pdf : File.t :=
  File.mk (lit "broken.pdf") 2048 (lit "application/pdf")
          (Resolved (lit "oops"))
          (Resolved (lit "data:application/pdf;base64,b29wcw==")) None.

Definition photo_png : File.t :=
  File.mk (lit "photo.png") 4096 (lit "image/png") (Resolved (lit "PNG"))
          (Resolved (lit "data:image/png;base64,iVBORw0KGgo=")) None.

(** A file whose read fails. *)
Definition unreadable_txt : File.t :=
  File.mk (lit "gone.txt") 64 (lit "text/plain") Rejected Rejected None.

(** * Properties *)

(** ** String primitives *)

Lemma eqb_refl (a : jsstring) : eqb a a = true.
Proof.
  induction a as [|x a IH]; simpl; [reflexivity|].
  now rewrite N.eqb_refl, IH.
Qed.

Lemma eqb_eq (a b : jsstring) : eqb a b = true <-> a = b.
Proof.
  split; [|intros ->; apply eqb_refl].
  revert b; induction a as [|x a IH]; intros [|y b]; simpl; try discriminate;
    [reflexivity|].
  intros H. apply andb_true_iff in H as [Hx Hab].
  apply N.eqb_eq in Hx. now rewrite Hx, (IH b Hab).
Qed.

Lemma eqb_neq (a b : jsstring) : eqb a b = false <-> a <> b.
Proof.
  rewrite <- eqb_eq. destruct (eqb a b); split; congruence.
Qed.

Lemma dropWhile_split (p : N -> bool) (s : jsstring) :
  exists w, s = w ++ dropWhile p s /\ forallb p w = true.
Proof.
  induction s as [|c r [w [Hs Hw]]]; simpl.
  - now exists [].
  - destruct (p c) eqn:Hc.
    + exists (c :: w). simpl. now rewrite Hc, Hw, <- Hs.
    + now exists [].
Qed.

Lemma forallb_rev (p : N -> bool) (w : jsstring) :
  forallb p w = true -> forallb p (rev w) = true.
Proof.
  rewrite !forallb_forall. intros H x Hx. apply H. now apply in_rev.
Qed.

Lemma trimEnd_split (s : jsstring) :
  exists w, s = trimEnd s ++ w /\ forallb isWhiteSpace w = true.
Proof.
  unfold trimEnd.
  destruct (dropWhile_split isWhiteSpace (rev s)) as [w [Hs Hw]].
  exists (rev w). split; [|now apply forallb_rev].
  rewrite <- rev_app_distr, <- Hs. now rewrite rev_involutive.
Qed.

(** ** Word counting *)

Lemma countTokens_whitespace (b : bool) (w : jsstring) :
  forallb isWhiteSpace w = true -> countTokens b w = 0.
Proof.
  revert b; induction w as [|c w IH]; intros b; simpl; [reflexivity|].
  intros H. apply andb_true_iff in H as [Hc Hw]. rewrite Hc. now apply IH.
Qed.

Lemma countTokens_app_whitespace (b : bool) (s w : jsstring) :
  forallb isWhiteSpace w = true -> countTokens b (s ++ w) = countTokens b s.
Proof.
  intros Hw. revert b; induction s as [|c s IH]; intros b; simpl.
  - now apply countTokens_whitespace.
  - destruct (isWhiteSpace c); now rewrite IH.
Qed.

Lemma tokenCount_trimStart (s : jsstring) :
  tokenCount (trimStart s) = tokenCount s.
Proof.
  unfold tokenCount, trimStart.
  induction s as [|c s IH]; simpl; [reflexivity|].
  destruct (isWhiteSpace c) eqn:Hc; [exact IH|].
  simpl. now rewrite Hc.
Qed.

Lemma tokenCount_trim (s : jsstring) : tokenCount (trim s) = tokenCount s.
Proof.
  unfold trim.
  destruct (trimEnd_split (trimStart s)) as [w [Hs Hw]].
  rewrite <- (tokenCount_trimStart s). rewrite Hs at 2.
  unfold tokenCount. now rewrite countTokens_app_whitespace.
Qed.

(** The pieces [split] yields, once the empty ones are filtered out, are as
    many as the runs still to start, plus the one being collected. *)
Lemma splitWsFrom_count (s : jsstring) :
  (forall inRun,
      length (filter truthy (splitWsFrom [] inRun s)) = countTokens true s)
  /\ (forall cur,
         truthy cur = true ->
         length (filter truthy (splitWsFrom cur false s))
         = 1 + countTokens false s).
Proof.
  induction s as [|c r [IHe IHc]]; split; simpl.
  - reflexivity.
  - intros cur ->. reflexivity.
  - intros inRun. destruct (isWhiteSpace c).
    + destruct inRun; simpl; apply IHe.
    + apply IHc. reflexivity.
  - intros cur Hcur. destruct (isWhiteSpace c).
    + simpl. rewrite Hcur. simpl. now rewrite IHe.
    + apply IHc. now destruct cur.
Qed.

Lemma wordCountOf_tokenCount (s : jsstring) : wordCountOf s = tokenCount s.
Proof.
  unfold wordCountOf, splitWs.
  rewrite (proj1 (splitWsFrom_count (trim s)) false).
  apply tokenCount_trim.
Qed.

(** ** Array slicing *)

Lemma slice_all_but_last_two {A} (l : list A) :
  slice 0 (-2) l = firstn (length l - 2) l.
Proof.
  unfold slice, relIndex. simpl.
  rewrite Z.min_l by lia. simpl. f_equal. lia.
Qed.

Lemma slice_drops_trailing_two {A} (earlier : list A) (a b : A) :
  slice 0 (-2) (earlier ++ [a; b]) = earlier.
Proof.
  rewrite slice_all_but_last_two, length_app. simpl.
  replace (length earlier + 2 - 2) with (length earlier + 0) by lia.
  rewrite firstn_app_2. simpl. apply app_nil_r.
Qed.

(** ** The file metadata extractor *)

(** C8: for a file whose declared type starts with [text/] and whose
    reads resolve, the metadata that [processFile] stores has [charCount]
    equal to the length of the text content and [wordCount] equal to the
    number of maximal non-empty runs of non white space code units of that
    content; that number is 0 when the content is empty or all white
    space. *)
Theorem processFile_text_counts (file : File.t) (st : State)
    (result textContent : jsstring) :
  startsWith (File.type file) (lit "text/") = true ->
  File.dataURL file = Resolved result ->
  File.text file = Resolved textContent ->
  exists m,
    fileMetadata (processFile file st) = Some m
    /\ FileMetadata.charCount m = length textContent
    /\ FileMetadata.wordCount m = tokenCount textContent
    /\ (forallb isWhiteSpace textContent = true ->
        FileMetadata.wordCount m = 0).
Proof.
  intros Htype Hurl Htext. unfold processFile, fileToBase64.
  rewrite Hurl, Htype, Htext.
  eexists. split; [reflexivity|]. simpl.
  rewrite wordCountOf_tokenCount. repeat split.
  intros Hws. now apply countTokens_whitespace.
Qed.

Lemma processFile_text_counts_witness :
  startsWith (File.type notes_txt) (lit "text/") = true
  /\ File.text notes_txt = Resolved (lit "  two words ")
  /\ exists m,
      fileMetadata (processFile notes_txt initial) = Some m
      /\ FileMetadata.charCount m = 12
      /\ FileMetadata.wordCount m = 2.
Proof.
  split; [reflexivity|]. split; [reflexivity|].
  destruct (processFile_text_counts notes_txt initial
              (lit "data:text/plain;base64,ICB0d28gd29yZHMg")
              (lit "  two words ") eq_refl eq_refl eq_refl)
    as [m [Hm [Hc [Hw _]]]].
  exists m. repeat split; assumption.
Defined.

(** C6: a file larger than 5 MiB is rejected: the error signal gets the
    size message, the attached file is cleared, and every other signal, the
    stored file metadata among them, is left as it was, so no metadata is
    made for that file. *)
Theorem handleFileChange_oversize (file : File.t) (others : list File.t)
    (st : State) :
  (5 * 1024 * 1024 < File.size file)%N ->
  handleFileChange (file :: others) st
  = mkState (chatSessions st) (activeSessionId st) (isLoading st)
            (currentPrompt st) None (fileMetadata st)
            (Some (lit "File is too large. Max size is 5MB.")).
Proof.
  intros Hsize. unfold handleFileChange.
  change MAX_FILE_SIZE with (5 * 1024 * 1024)%N.
  apply N.ltb_lt in Hsize. rewrite Hsize. reflexivity.
Qed.

Lemma handleFileChange_oversize_witness :
  (5 * 1024 * 1024 < File.size big_txt)%N
  /\ fileMetadata (handleFileChange [big_txt] initial) = None
  /\ error (handleFileChange [big_txt] initial)
     = Some (lit "File is too large. Max size is 5MB.").
Proof.
  split; [reflexivity|].
  rewrite (handleFileChange_oversize big_txt [] initial eq_refl).
  split; reflexivity.
Defined.

(** ** The history builder *)

(** C2: [buildHistory] returns one turn per message other than the last
    two, in the order of the messages, the role of each turn being "model"
    for an "ai" message and "user" for a "user" message; the two trailing
    messages contribute nothing. *)
Theorem buildHistory_turns (messages earlier : list ChatMessage.t)
    (a b : ChatMessage.t) :
  length (buildHistory messages) = length messages - 2
  /\ buildHistory messages
     = map turnOf (firstn (length messages - 2) messages)
  /\ map Content.role (buildHistory messages)
     = map roleName (firstn (length messages - 2) messages)
  /\ buildHistory (earlier ++ [a; b]) = map turnOf earlier.
Proof.
  unfold buildHistory. rewrite slice_drops_trailing_two.
  rewrite slice_all_but_last_two. repeat split.
  - rewrite length_map, length_firstn. lia.
  - rewrite map_map. apply map_ext. intros msg. unfold turnOf, roleName.
    reflexivity.
Qed.

(** The turn of a user message with embedded content, whatever comes after
    it, as long as two messages at least do. *)
Lemma buildHistory_file_turn (earlier later : list ChatMessage.t)
    (msg : ChatMessage.t) (info : FileMetadata.t) (data : jsstring) :
  ChatMessage.role msg = user ->
  ChatMessage.fileInfo msg = Some info ->
  FileMetadata.base64Content info = Some data ->
  truthy data = true ->
  2 <= length later ->
  nth_error (buildHistory (earlier ++ msg :: later)) (length earlier)
  = Some (Content.mk (lit "user")
            [InlineDataPart (FileMetadata.type info) data;
             TextPart (ChatMessage.text msg)]).
Proof.
  intros Hrole Hinfo Hdata Htruthy Hlater.
  unfold buildHistory. rewrite slice_all_but_last_two.
  rewrite nth_error_map, nth_error_firstn.
  assert (Hlt : length earlier < length (earlier ++ msg :: later) - 2).
  { rewrite length_app. simpl. lia. }
  apply Nat.ltb_lt in Hlt. rewrite Hlt.
  rewrite nth_error_app2 by lia. rewrite Nat.sub_diag. simpl.
  unfold turnOf. now rewrite Hrole, Hinfo, Hdata, Htruthy.
Qed.

(** ** The session store *)

Lemma deleteChat_sessions (id : jsstring) (st : State) :
  chatSessions (deleteChat id st)
  = filter (fun s => negb (eqb (ChatSession.id s) id)) (chatSessions st).
Proof.
  unfold deleteChat, set_activeSessionId, set_chatSessions. simpl.
  destruct (activeSessionId st) as [a|]; [|reflexivity].
  destruct (eqb a id); reflexivity.
Qed.

Lemma in_ids_filter (id x : jsstring) (sessions : list ChatSession.t) :
  In x (map ChatSession.id
          (filter (fun s => negb (eqb (ChatSession.id s) id)) sessions))
  <-> In x (map ChatSession.id sessions) /\ x <> id.
Proof.
  rewrite !in_map_iff. split.
  - intros [s [Hx Hs]]. apply filter_In in Hs as [Hs Hne].
    apply negb_true_iff, eqb_neq in Hne. subst x.
    split; [now exists s | assumption].
  - intros [[s [Hx Hs]] Hne]. exists s. split; [assumption|].
    apply filter_In. split; [assumption|].
    apply negb_true_iff, eqb_neq. now subst x.
Qed.

Lemma deleteChat_active (id : jsstring) (st : State) :
  activeSessionId (deleteChat id st)
  = if match activeSessionId st with Some a => eqb a id | None => false end
    then firstId (chatSessions (deleteChat id st))
    else activeSessionId st.
Proof.
  unfold deleteChat, set_activeSessionId, set_chatSessions. simpl.
  destruct (activeSessionId st) as [a|]; [|reflexivity].
  destruct (eqb a id); reflexivity.
Qed.

Lemma firstId_valid (sessions : list ChatSession.t) (a : jsstring) :
  firstId sessions = Some a -> In a (map ChatSession.id sessions).
Proof.
  destruct sessions as [|s rest]; simpl; [discriminate|].
  intros [= <-]. now left.
Qed.

(** C7: [deleteChat(id)] for the id of a listed session removes every
    session with that id and no other; afterwards the active id is never
    the removed id; when the removed session was the active one the active
    id is the id of the new first session, or none when the list is empty,
    so it is none or the id of a listed session; and a store whose active
    id was none or listed before has it none or listed after. *)
Theorem deleteChat_no_dangling (id : jsstring) (st : State) :
  In id (map ChatSession.id (chatSessions st)) ->
  let st' := deleteChat id st in
  ~ In id (map ChatSession.id (chatSessions st'))
  /\ (forall s, In s (chatSessions st') <->
                In s (chatSessions st) /\ ChatSession.id s <> id)
  /\ activeSessionId st' <> Some id
  /\ (activeSessionId st = Some id ->
      activeSessionId st' = firstId (chatSessions st') /\ activeValid st')
  /\ (activeSessionId st <> Some id ->
      activeSessionId st' = activeSessionId st)
  /\ (activeValid st -> activeValid st').
Proof.
  intros _ st'. subst st'.
  assert (Hgone : ~ In id (map ChatSession.id (chatSessions (deleteChat id st)))).
  { rewrite deleteChat_sessions, in_ids_filter. tauto. }
  assert (Hfirst : forall a,
             firstId (chatSessions (deleteChat id st)) = Some a ->
             In a (map ChatSession.id (chatSessions (deleteChat id st)))).
  { intros a. apply firstId_valid. }
  split; [exact Hgone|]. split.
  { intros s. rewrite deleteChat_sessions, filter_In.
    rewrite negb_true_iff, eqb_neq. tauto. }
  unfold activeValid. rewrite deleteChat_active.
  destruct (activeSessionId st) as [a|] eqn:Hact.
  - destruct (eqb a id) eqn:Heq.
    + apply eqb_eq in Heq. subst a. repeat split.
      * intros Hd. apply Hgone. now apply Hfirst.
      * destruct (firstId _) eqn:Hf; [now apply Hfirst | exact I].
      * congruence.
      * intros _. destruct (firstId _) eqn:Hf; [now apply Hfirst | exact I].
    + apply eqb_neq in Heq. repeat split; try congruence.
      intros Hin. rewrite deleteChat_sessions. apply in_ids_filter. tauto.
  - repeat split; congruence.
Qed.

Lemma deleteChat_no_dangling_witness :
  In (lit "chat_2") (map ChatSession.id (chatSessions two_chats))
  /\ activeSessionId (deleteChat (lit "chat_2") two_chats)
     = Some (lit "chat_1")
  /\ activeValid (deleteChat (lit "chat_2") two_chats).
Proof.
  assert (Hin : In (lit "chat_2")
                   (map ChatSession.id (chatSessions two_chats))).
  { left. reflexivity. }
  split; [exact Hin|].
  destruct (deleteChat_no_dangling (lit "chat_2") two_chats Hin)
    as [_ [_ [_ [Hact _]]]].
  destruct (Hact eq_refl) as [Hfirst Hvalid].
  split; [exact Hfirst | exact Hvalid].
Defined.

(** ** The markdown pipe *)

(** C4 (what the code does): for a non-blank input that the parser accepts,
    [transform] returns the parser's markup unchanged inside the wrapper
    that switches sanitizing off; no step between the parser and the view
    neutralizes markup embedded in the input. *)
Theorem transform_trusts_parser_output
    (marked_parse : jsstring -> option jsstring) (value rawHtml : jsstring) :
  truthy (trim value) = true ->
  marked_parse value = Some rawHtml ->
  MarkdownPipe.transform marked_parse (Some value)
  = MarkdownPipe.TrustedHtml rawHtml.
Proof.
  intros Hvalue Hparse. unfold MarkdownPipe.transform.
  now rewrite Hvalue, Hparse.
Qed.

Lemma transform_trusts_parser_output_witness :
  MarkdownPipe.transform passthrough_parse
    (Some (lit "<img src=x onerror=alert(1)>"))
  = MarkdownPipe.TrustedHtml (lit "<p><img src=x onerror=alert(1)></p>").
Proof.
  apply (transform_trusts_parser_output passthrough_parse
           (lit "<img src=x onerror=alert(1)>")); reflexivity.
Defined.

(** ** The send orchestrator *)

Lemma find_writeBack (a : jsstring) (cur s : ChatSession.t)
    (sessions : list ChatSession.t) :
  find (fun x => eqb (ChatSession.id x) a) sessions = Some s ->
  ChatSession.id cur = ChatSession.id s ->
  find (fun x => eqb (ChatSession.id x) a) (writeBack cur sessions) = Some cur.
Proof.
  intros Hfind Hid.
  assert (Ha : ChatSession.id cur = a).
  { apply find_some in Hfind as [_ Hs]. apply eqb_eq in Hs. congruence. }
  clear Hid. revert Hfind.
  induction sessions as [|x rest IH]; simpl; [discriminate|].
  destruct (eqb (ChatSession.id x) a) eqn:Hx.
  - intros _. apply eqb_eq in Hx. rewrite Hx, Ha, eqb_refl. simpl.
    now rewrite Ha, eqb_refl.
  - intros Hrest. rewrite Ha, Hx. simpl. rewrite Hx. now apply IH.
Qed.

Lemma activeSession_startNewChat (now created : N) (st : State) :
  activeSession (startNewChat now created st) = Some (newSession now created).
Proof.
  unfold activeSession, startNewChat. simpl. now rewrite eqb_refl.
Qed.

(** The three mutations of the session before the streaming call: the
    title on a first message, the user message, the placeholder. *)
Lemma pushed_session (p : jsstring) (fm : option FileMetadata.t)
    (s : ChatSession.t) :
  let c1 := if length (ChatSession.messages s) =? 0
            then set_title (firstTitle p fm) s else s in
  let c2 := set_messages
              (ChatSession.messages c1 ++ [ChatMessage.mk user p fm]) c1 in
  set_messages (ChatSession.messages c2 ++ [ChatMessage.mk ai [] None]) c2
  = ChatSession.mk (ChatSession.id s)
      match ChatSession.messages s with
      | [] => firstTitle p fm
      | _ :: _ => ChatSession.title s
      end
      (ChatSession.messages s
       ++ [ChatMessage.mk user p fm; ChatMessage.mk ai [] None])
      (ChatSession.createdAt s).
Proof.
  destruct s as [sid stitle smsgs screated]. unfold set_messages.
  destruct smsgs; simpl; [reflexivity|].
  now rewrite <- app_assoc.
Qed.

(** The "should not happen" branch is indeed dead: a send that passes the
    precondition reaches the streaming call. *)
Lemma sendMessage_begin_spec (now created : N) (st : State) :
  canSend st = true ->
  exists sessions',
    sendMessage_begin now created st
    = Begun (mkState sessions'
               (Some (ChatSession.id (sessionFor now created st)))
               true [] None None None)
            (mkSending (begunSession now created st) placeholder
                       (trim (currentPrompt st)) (fileMetadata st))
    /\ find (fun x => eqb (ChatSession.id x)
                          (ChatSession.id (begunSession now created st)))
            sessions'
       = Some (begunSession now created st)
    /\ truthy (ChatSession.id (begunSession now created st)) = true.
Proof.
  intros Hcan. unfold sendMessage_begin.
  assert (Hpre : negb (truthy (trim (currentPrompt st)))
                 && negb (match fileMetadata st with
                          | Some _ => true | None => false end) = false).
  { unfold canSend in Hcan. rewrite <- negb_orb, Hcan. reflexivity. }
  rewrite Hpre.
  assert (Hsame : activeSession (set_error None (set_isLoading true st))
                  = activeSession st) by reflexivity.
  rewrite Hsame.
  unfold begunSession, titleAfter, sessionFor.
  destruct (activeSession st) as [s|] eqn:Hact.
  - rewrite Hsame.
    pose proof (pushed_session (trim (currentPrompt st)) (fileMetadata st) s)
      as Hcur.
    cbv zeta in Hcur.
    cbv zeta. rewrite Hcur.
    assert (Ha : activeSessionId st = Some (ChatSession.id s)
                 /\ truthy (ChatSession.id s) = true
                 /\ find (fun x => eqb (ChatSession.id x) (ChatSession.id s))
                         (chatSessions st) = Some s).
    { unfold activeSession in Hact.
      destruct (activeSessionId st) as [a|]; [|discriminate].
      destruct (truthy a) eqn:Ha; [|discriminate]. simpl in Hact.
      pose proof (find_some _ _ Hact) as [_ Hs]. apply eqb_eq in Hs.
      now subst a. }
    destruct Ha as [Hid [Htruthy Hfind]].
    eexists. split; [|split].
    + rewrite <- Hid. reflexivity.
    + simpl. now apply find_writeBack with (s := s).
    + exact Htruthy.
  - rewrite activeSession_startNewChat.
    eexists. split; [|split].
    + reflexivity.
    + simpl. now rewrite !eqb_refl.
    + reflexivity.
Qed.

Lemma set_chatSessions_eta (st : State) :
  set_chatSessions (chatSessions st) st = st.
Proof. now destruct st. Qed.

Lemma set_messages_eta (s : ChatSession.t) :
  set_messages (ChatSession.messages s) s = s.
Proof. now destruct s. Qed.

Lemma set_text_eta (m : ChatMessage.t) : set_text (ChatMessage.text m) m = m.
Proof. now destruct m. Qed.

(** A mutation of the placeholder, as [onChunk] and [onError] make it:
    the placeholder gets the text and the store entry of the session
    follows. *)
Lemma mutate_placeholder (v : jsstring) (st : State) (loc : Sending)
    (base : list ChatMessage.t) :
  find (fun x => eqb (ChatSession.id x) (ChatSession.id (currentSession loc)))
       (chatSessions st) = Some (currentSession loc) ->
  ChatSession.messages (currentSession loc) = base ++ [aiMessage loc] ->
  let ai' := set_text v (aiMessage loc) in
  let cur' := set_messages (base ++ [ai']) (currentSession loc) in
  withAiMessage ai' (currentSession loc) = cur'
  /\ find (fun x => eqb (ChatSession.id x) (ChatSession.id cur'))
          (writeBack cur' (chatSessions st)) = Some cur'.
Proof.
  intros Hfind Hmsgs ai' cur'. split.
  - unfold withAiMessage. rewrite Hmsgs, removelast_last. reflexivity.
  - now apply find_writeBack with (s := currentSession loc).
Qed.

(** The loop: the store follows the session, the session keeps the
    messages before the placeholder, and the placeholder collects what
    the texts of the chunks convert to, in arrival order. *)
Lemma consume_spec (chunks : list (option jsstring)) :
  forall (st : State) (loc : Sending) (base : list ChatMessage.t),
    find (fun x => eqb (ChatSession.id x)
                       (ChatSession.id (currentSession loc)))
         (chatSessions st) = Some (currentSession loc) ->
    ChatSession.messages (currentSession loc) = base ++ [aiMessage loc] ->
    let ai' := set_text (ChatMessage.text (aiMessage loc)
                         ++ concat (map toString chunks))
                        (aiMessage loc) in
    let cur' := set_messages (base ++ [ai']) (currentSession loc) in
    exists sessions',
      consume chunks (st, loc)
      = (set_chatSessions sessions' st,
         mkSending cur' ai' (prompt loc) (fileMeta loc))
      /\ find (fun x => eqb (ChatSession.id x) (ChatSession.id cur'))
              sessions' = Some cur'.
Proof.
  induction chunks as [|c chunks IH]; intros st loc base Hfind Hmsgs.
  - simpl. rewrite app_nil_r, set_text_eta, <- Hmsgs, set_messages_eta.
    exists (chatSessions st). rewrite set_chatSessions_eta.
    split; [now destruct loc | exact Hfind].
  - destruct (mutate_placeholder (ChatMessage.text (aiMessage loc) ++ toString c)
                st loc base Hfind Hmsgs) as [Hwith Hfind'].
    change (consume (c :: chunks) (st, loc))
      with (consume chunks (onChunk c (st, loc))).
    unfold onChunk. rewrite Hwith.
    destruct (IH (set_chatSessions
                    (writeBack
                       (set_messages
                          (base ++ [set_text (ChatMessage.text (aiMessage loc)
                                              ++ toString c)
                                             (aiMessage loc)])
                          (currentSession loc))
                       (chatSessions st)) st)
                 (mkSending
                    (set_messages
                       (base ++ [set_text (ChatMessage.text (aiMessage loc)
                                           ++ toString c)
                                          (aiMessage loc)])
                       (currentSession loc))
                    (set_text (ChatMessage.text (aiMessage loc) ++ toString c)
                              (aiMessage loc))
                    (prompt loc) (fileMeta loc))
                 base Hfind' eq_refl)
      as [sessions' [Hrun Hfound]].
    exists sessions'. simpl in Hrun, Hfound |- *.
    rewrite Hrun. clear IH Hrun.
    unfold set_text, set_messages, set_chatSessions in Hfound |- *.
    simpl in Hfound |- *. rewrite <- app_assoc in Hfound. rewrite <- app_assoc.
    split; [reflexivity | exact Hfound].
Qed.

(** The [catch] block: the error signal is set and the placeholder gets
    the apology in place of what it had collected. *)
Lemma onError_spec (st : State) (loc : Sending) (base : list ChatMessage.t) :
  find (fun x => eqb (ChatSession.id x) (ChatSession.id (currentSession loc)))
       (chatSessions st) = Some (currentSession loc) ->
  ChatSession.messages (currentSession loc) = base ++ [aiMessage loc] ->
  let ai' := set_text apology (aiMessage loc) in
  let cur' := set_messages (base ++ [ai']) (currentSession loc) in
  exists sessions',
    onError (st, loc)
    = (set_chatSessions sessions' (set_error (Some sendError) st),
       mkSending cur' ai' (prompt loc) (fileMeta loc))
    /\ find (fun x => eqb (ChatSession.id x) (ChatSession.id cur'))
            sessions' = Some cur'.
Proof.
  intros Hfind Hmsgs.
  destruct (mutate_placeholder apology st loc base Hfind Hmsgs)
    as [Hwith Hfind'].
  unfold onError. cbv zeta. fold apology. fold sendError. rewrite Hwith.
  eexists. split; [reflexivity | exact Hfind'].
Qed.

(** A send that passes the precondition, run to its end: the signals it
    leaves and the session the store then holds under the active id. *)
Lemma sendMessage_spec (now created : N) (stream : Stream) (st : State) :
  canSend st = true ->
  exists sessions',
    sendMessage now created stream st
    = mkState sessions' (Some (ChatSession.id (sessionFor now created st)))
              false [] None None
              (if throws stream then Some sendError else None)
    /\ find (fun x => eqb (ChatSession.id x)
                          (ChatSession.id (sessionFor now created st)))
            sessions'
       = Some (settledSession now created stream st)
    /\ truthy (ChatSession.id (sessionFor now created st)) = true.
Proof.
  intros Hcan.
  destruct (sendMessage_begin_spec now created st Hcan)
    as [sessions0 [Hbegin [Hfind0 Htruthy]]].
  unfold sendMessage. rewrite Hbegin.
  assert (Hmsgs :
    ChatSession.messages (begunSession now created st)
    = (ChatSession.messages (sessionFor now created st) ++ [userMessageOf st])
      ++ [placeholder]).
  { unfold begunSession. simpl. now rewrite <- app_assoc. }
  destruct (consume_spec (fragments stream)
              (mkState sessions0
                 (Some (ChatSession.id (sessionFor now created st)))
                 true [] None None None)
              (mkSending (begunSession now created st) placeholder
                         (trim (currentPrompt st)) (fileMetadata st))
              (ChatSession.messages (sessionFor now created st)
               ++ [userMessageOf st])
              Hfind0 Hmsgs)
    as [sessions1 [Hrun Hfind1]].
  rewrite Hrun. clear Hrun Hbegin Hfind0.
  unfold settledSession, settledText.
  destruct (throws stream).
  - cbv zeta.
    match goal with
    | |- context [onError (?s, ?l)] =>
        destruct (onError_spec s l
                    (ChatSession.messages (sessionFor now created st)
                     ++ [userMessageOf st])
                    Hfind1 eq_refl) as [sessions2 [Herr Hfind2]]
    end.
    cbv zeta. rewrite Herr.
    eexists. split; [reflexivity|]. split; [|exact Htruthy].
    unfold set_messages, set_text in Hfind2 |- *. simpl in Hfind2 |- *.
    rewrite <- app_assoc in Hfind2. exact Hfind2.
  - simpl. eexists. split; [reflexivity|]. split; [|exact Htruthy].
    unfold set_messages, set_text in Hfind1 |- *. simpl in Hfind1 |- *.
    rewrite <- app_assoc in Hfind1. exact Hfind1.
Qed.

Lemma sendMessage_active (now created : N) (stream : Stream) (st : State) :
  canSend st = true ->
  activeSession (sendMessage now created stream st)
  = Some (settledSession now created stream st).
Proof.
  intros Hcan.
  destruct (sendMessage_spec now created stream st Hcan)
    as [sessions' [Hst [Hfind Htruthy]]].
  rewrite Hst. unfold activeSession. simpl. now rewrite Htruthy.
Qed.

Lemma sendMessage_skipped (now created : N) (stream : Stream) (st : State) :
  canSend st = false -> sendMessage now created stream st = st.
Proof.
  intros Hcan. unfold sendMessage, sendMessage_begin.
  unfold canSend in Hcan. rewrite <- negb_orb, Hcan. reflexivity.
Qed.

Lemma sendMessage_begin_active (now created : N) (st : State) :
  canSend st = true ->
  exists st0 loc,
    sendMessage_begin now created st = Begun st0 loc
    /\ activeSession st0 = Some (currentSession loc)
    /\ currentSession loc = begunSession now created st
    /\ aiMessage loc = placeholder
    /\ prompt loc = trim (currentPrompt st)
    /\ fileMeta loc = fileMetadata st.
Proof.
  intros Hcan.
  destruct (sendMessage_begin_spec now created st Hcan)
    as [sessions0 [Hbegin [Hfind0 Htruthy]]].
  do 2 eexists. split; [exact Hbegin|]. repeat split.
  unfold activeSession. simpl in *. now rewrite Htruthy, Hfind0.
Qed.

(** C9 (what the code does): a send that passes the precondition has,
    when the streaming call begins, appended the user message and the
    empty placeholder to the session it works on (the active one, or the
    one it created).  When the stream is exhausted without an error the
    placeholder's text is the concatenation, in arrival order, of what the
    text of each chunk converts to: the fragment itself, and the letters
    "undefined" for a chunk whose text is undefined.  It is the
    concatenation of the fragments when every chunk carries a text;
    loading is cleared and no error is set. *)
Theorem sendMessage_streams_in_order (now created : N)
    (chunks : list (option jsstring)) (st : State) :
  canSend st = true ->
  (exists st0 loc s0,
      sendMessage_begin now created st = Begun st0 loc
      /\ activeSession st0 = Some s0
      /\ ChatSession.messages s0
         = ChatSession.messages (sessionFor now created st)
           ++ [ChatMessage.mk user (trim (currentPrompt st)) (fileMetadata st);
               ChatMessage.mk ai [] None])
  /\ (exists s1,
         activeSession (sendMessage now created (mkStream chunks false) st)
         = Some s1
         /\ ChatSession.messages s1
            = ChatSession.messages (sessionFor now created st)
              ++ [ChatMessage.mk user (trim (currentPrompt st))
                                 (fileMetadata st);
                  ChatMessage.mk ai (concat (map toString chunks)) None])
  /\ (forall texts,
         chunks = map Some texts ->
         concat (map toString chunks) = concat texts)
  /\ isLoading (sendMessage now created (mkStream chunks false) st) = false
  /\ error (sendMessage now created (mkStream chunks false) st) = None.
Proof.
  intros Hcan. split; [|split; [|split]].
  - destruct (sendMessage_begin_active now created st Hcan)
      as [st0 [loc [Hbegin [Hact [Hcur _]]]]].
    exists st0, loc, (currentSession loc). rewrite Hcur at 2.
    repeat split; assumption.
  - exists (settledSession now created (mkStream chunks false) st).
    split; [now apply sendMessage_active | reflexivity].
  - intros texts ->. rewrite map_map. simpl. now rewrite map_id.
  - destruct (sendMessage_spec now created (mkStream chunks false) st Hcan)
      as [sessions' [Hst _]].
    rewrite Hst. split; reflexivity.
Qed.

(** C3: when the streaming call throws, before any chunk or after some,
    a send that reached it sets the error signal to the fixed message,
    leaves the placeholder with the fixed apology as its whole text,
    whatever fragments had arrived, and clears the loading flag. *)
Theorem sendMessage_throw_settles (now created : N)
    (chunks : list (option jsstring)) (st : State) :
  canSend st = true ->
  let st' := sendMessage now created (mkStream chunks true) st in
  error st'
  = Some (lit "An error occurred while communicating with the AI. Please check your setup and try again.")
  /\ isLoading st' = false
  /\ exists s1,
      activeSession st' = Some s1
      /\ ChatSession.messages s1
         = ChatSession.messages (sessionFor now created st)
           ++ [ChatMessage.mk user (trim (currentPrompt st)) (fileMetadata st);
               ChatMessage.mk ai
                 (lit "Sorry, I encountered an error. Please try again.")
                 None].
Proof.
  intros Hcan st'. subst st'.
  destruct (sendMessage_spec now created (mkStream chunks true) st Hcan)
    as [sessions' [Hst _]].
  split; [|split].
  - rewrite Hst. reflexivity.
  - rewrite Hst. reflexivity.
  - exists (settledSession now created (mkStream chunks true) st).
    split; [now apply sendMessage_active | reflexivity].
Qed.

Lemma sendMessage_streams_in_order_witness :
  canSend hello = true
  /\ exists s1,
      activeSession
        (sendMessage 1700 1700 (mkStream [Some (lit "Hi"); None] false) hello)
      = Some s1
      /\ ChatSession.messages s1
         = [ChatMessage.mk user (lit "Hello") None;
            ChatMessage.mk ai (lit "Hiundefined") None].
Proof.
  split; [reflexivity|].
  destruct (sendMessage_streams_in_order 1700 1700 [Some (lit "Hi"); None]
              hello eq_refl) as [_ [[s1 [Hact Hmsgs]] _]].
  exists s1. split; [exact Hact | exact Hmsgs].
Defined.

Lemma sendMessage_throw_settles_witness :
  canSend hello = true
  /\ exists s1,
      activeSession
        (sendMessage 1700 1700 (mkStream [Some (lit "Hi"); None] true) hello)
      = Some s1
      /\ ChatSession.messages s1
         = [ChatMessage.mk user (lit "Hello") None;
            ChatMessage.mk ai
              (lit "Sorry, I encountered an error. Please try again.") None].
Proof.
  split; [reflexivity|].
  destruct (sendMessage_throw_settles 1700 1700 [Some (lit "Hi"); None]
              hello eq_refl) as [_ [_ [s1 [Hact Hmsgs]]]].
  exists s1. split; [exact Hact | exact Hmsgs].
Defined.

(** ** Runs: what later events leave of a session *)

Lemma processFile_frame (file : File.t) (st : State) :
  chatSessions (processFile file st) = chatSessions st
  /\ activeSessionId (processFile file st) = activeSessionId st
  /\ isLoading (processFile file st) = isLoading st
  /\ currentPrompt (processFile file st) = currentPrompt st
  /\ attachedFile (processFile file st) = attachedFile st.
Proof.
  unfold processFile.
  destruct (fileToBase64 file); [|now repeat split].
  destruct (startsWith (File.type file) (lit "text/"));
    [destruct (File.text file); now repeat split|].
  destruct (eqb (File.type file) (lit "application/pdf"));
    [destruct (File.numPages file)|]; now repeat split.
Qed.

Lemma handleFileChange_frame (files : list File.t) (st : State) :
  chatSessions (handleFileChange files st) = chatSessions st
  /\ activeSessionId (handleFileChange files st) = activeSessionId st.
Proof.
  unfold handleFileChange.
  destruct files as [|file others]; [now split|].
  destruct (MAX_FILE_SIZE <? File.size file)%N; [now split|].
  destruct (processFile_frame file
              (set_error None (set_attachedFile (Some file) st)))
    as [Hs [Ha _]].
  now rewrite Hs, Ha.
Qed.

Lemma activeSession_handleFileChange (files : list File.t) (st : State) :
  activeSession (handleFileChange files st) = activeSession st.
Proof.
  unfold activeSession.
  destruct (handleFileChange_frame files st) as [Hs Ha].
  now rewrite Hs, Ha.
Qed.

(** An event keeps the active session active, keeps its id, only appends
    to its messages, and keeps its title once it has a message. *)
Lemma step_keeps_session (e : Event) (st : State) (s : ChatSession.t) :
  activeSession st = Some s ->
  exists s' extra,
    activeSession (step e st) = Some s'
    /\ ChatSession.id s' = ChatSession.id s
    /\ ChatSession.messages s' = ChatSession.messages s ++ extra
    /\ (ChatSession.messages s <> [] ->
        ChatSession.title s' = ChatSession.title s).
Proof.
  intros Hact.
  assert (Hsame : forall st', activeSession st' = activeSession st ->
            exists s' extra,
              activeSession st' = Some s'
              /\ ChatSession.id s' = ChatSession.id s
              /\ ChatSession.messages s' = ChatSession.messages s ++ extra
              /\ (ChatSession.messages s <> [] ->
                  ChatSession.title s' = ChatSession.title s)).
  { intros st' Heq. exists s, []. rewrite Heq, app_nil_r. now repeat split. }
  destruct e as [value|files| |now created stream]; simpl.
  - now apply Hsame.
  - apply Hsame, activeSession_handleFileChange.
  - now apply Hsame.
  - destruct (canSend st) eqn:Hcan.
    + rewrite (sendMessage_active now created stream st Hcan).
      unfold settledSession, titleAfter, sessionFor. rewrite Hact.
      eexists. eexists. split; [reflexivity|]. simpl. repeat split.
      intros Hne. destruct (ChatSession.messages s); congruence.
    + rewrite (sendMessage_skipped now created stream st Hcan).
      now apply Hsame.
Qed.

Lemma run_keeps_session (events : list Event) :
  forall (st : State) (s : ChatSession.t),
    activeSession st = Some s ->
    exists s' extra,
      activeSession (run events st) = Some s'
      /\ ChatSession.id s' = ChatSession.id s
      /\ ChatSession.messages s' = ChatSession.messages s ++ extra
      /\ (ChatSession.messages s <> [] ->
          ChatSession.title s' = ChatSession.title s).
Proof.
  induction events as [|e events IH]; intros st s Hact.
  - exists s, []. rewrite app_nil_r. now repeat split.
  - destruct (step_keeps_session e st s Hact)
      as [s1 [extra1 [Hact1 [Hid1 [Hmsgs1 Htitle1]]]]].
    destruct (IH (step e st) s1 Hact1)
      as [s2 [extra2 [Hact2 [Hid2 [Hmsgs2 Htitle2]]]]].
    exists s2, (extra1 ++ extra2). simpl. split; [exact Hact2|].
    split; [congruence|]. split.
    + now rewrite Hmsgs2, Hmsgs1, app_assoc.
    + intros Hne. rewrite Htitle2; [now apply Htitle1|].
      rewrite Hmsgs1. intros Hnil. apply app_eq_nil in Hnil. tauto.
Qed.

(** ** The session title *)

Lemma firstTitle_prompt (p : jsstring) (fm : option FileMetadata.t) :
  truthy p = true -> firstTitle p fm = firstn 30 p.
Proof.
  intros Hp. unfold firstTitle, substring0.
  destruct p as [|c p]; [discriminate|]. reflexivity.
Qed.

(** C5: the send of the first message of a session (one that passes the
    precondition on a session without messages) sets the title to the
    first 30 code units of the trimmed prompt when that is not empty, else
    to the name of the attached file when it has one, else to
    "New Conversation"; whatever prompts, file choices and sends follow on
    that session, its title stays what that first send made it. *)
Theorem title_set_once (now created : N) (stream : Stream) (st : State)
    (events : list Event) :
  canSend st = true ->
  ChatSession.messages (sessionFor now created st) = [] ->
  exists s1,
    activeSession (sendMessage now created stream st) = Some s1
    /\ ChatSession.id s1 = ChatSession.id (sessionFor now created st)
    /\ (truthy (trim (currentPrompt st)) = true ->
        ChatSession.title s1 = firstn 30 (trim (currentPrompt st)))
    /\ (forall f,
           trim (currentPrompt st) = [] ->
           fileMetadata st = Some f ->
           ChatSession.title s1
           = if truthy (FileMetadata.name f) then FileMetadata.name f
             else lit "New Conversation")
    /\ firstTitle [] None = lit "New Conversation"
    /\ exists s2,
        activeSession (run events (sendMessage now created stream st))
        = Some s2
        /\ ChatSession.id s2 = ChatSession.id s1
        /\ ChatSession.title s2 = ChatSession.title s1.
Proof.
  intros Hcan Hfirst.
  pose proof (sendMessage_active now created stream st Hcan) as Hact.
  exists (settledSession now created stream st).
  split; [exact Hact|]. split; [reflexivity|].
  assert (Htitle : ChatSession.title (settledSession now created stream st)
                   = firstTitle (trim (currentPrompt st)) (fileMetadata st)).
  { unfold settledSession, titleAfter. simpl. now rewrite Hfirst. }
  split; [|split; [|split]].
  - intros Hp. rewrite Htitle. now apply firstTitle_prompt.
  - intros f Hp Hf. rewrite Htitle, Hp, Hf. reflexivity.
  - reflexivity.
  - destruct (run_keeps_session events _ _ Hact)
      as [s2 [extra [Hact2 [Hid2 [_ Htitle2]]]]].
    exists s2. split; [exact Hact2|]. split; [exact Hid2|].
    apply Htitle2. unfold settledSession. simpl.
    intros Hnil. apply app_eq_nil in Hnil. destruct Hnil; discriminate.
Qed.

Lemma title_set_once_witness :
  canSend hello = true
  /\ ChatSession.messages (sessionFor 1700 1700 hello) = []
  /\ exists s2,
      activeSession
        (run later_events
           (sendMessage 1700 1700 (mkStream [Some (lit "Hi")] false) hello))
      = Some s2
      /\ ChatSession.title s2 = lit "Hello".
Proof.
  split; [reflexivity|]. split; [reflexivity|].
  destruct (title_set_once 1700 1700 (mkStream [Some (lit "Hi")] false) hello
              later_events eq_refl eq_refl)
    as [s1 [_ [_ [Hprompt [_ [_ [s2 [Hact2 [_ Htitle2]]]]]]]]].
  exists s2. split; [exact Hact2|].
  rewrite Htitle2. exact (Hprompt eq_refl).
Defined.

(** ** File payloads in later turns *)

(** C1: a user message of the active session whose file metadata holds a
    non-empty base64 content gets, in the history of every later send on
    that session, whatever prompts, file choices and sends came in
    between, a turn of role "user" whose parts are the inline data part of
    the file followed by the text part. *)
Theorem history_replays_file (st : State) (s : ChatSession.t)
    (earlier later : list ChatMessage.t) (msg : ChatMessage.t)
    (info : FileMetadata.t) (data : jsstring) (events : list Event)
    (now created : N) :
  activeSession st = Some s ->
  ChatSession.messages s = earlier ++ msg :: later ->
  ChatMessage.role msg = user ->
  ChatMessage.fileInfo msg = Some info ->
  FileMetadata.base64Content info = Some data ->
  truthy data = true ->
  canSend (run events st) = true ->
  exists st0 loc,
    sendMessage_begin now created (run events st) = Begun st0 loc
    /\ nth_error (buildHistory (ChatSession.messages (currentSession loc)))
                 (length earlier)
       = Some (Content.mk (lit "user")
                 [InlineDataPart (FileMetadata.type info) data;
                  TextPart (ChatMessage.text msg)])
    /\ nth_error (request loc) (length earlier)
       = Some (Content.mk (lit "user")
                 [InlineDataPart (FileMetadata.type info) data;
                  TextPart (ChatMessage.text msg)]).
Proof.
  intros Hact Hmsgs Hrole Hinfo Hdata Htruthy Hcan.
  destruct (run_keeps_session events st s Hact)
    as [s' [extra [Hact' [_ [Hmsgs' _]]]]].
  destruct (sendMessage_begin_active now created (run events st) Hcan)
    as [st0 [loc [Hbegin [_ [Hcur [_ _]]]]]].
  exists st0, loc. split; [exact Hbegin|].
  assert (Hhist :
    nth_error (buildHistory (ChatSession.messages (currentSession loc)))
              (length earlier)
    = Some (Content.mk (lit "user")
              [InlineDataPart (FileMetadata.type info) data;
               TextPart (ChatMessage.text msg)])).
  { rewrite Hcur. unfold begunSession, sessionFor. rewrite Hact'. simpl.
    rewrite Hmsgs', Hmsgs, <- !app_assoc. simpl.
    apply buildHistory_file_turn with (info := info); try assumption.
    rewrite !length_app. simpl. lia. }
  split; [exact Hhist|].
  unfold request, GeminiService.requestContents.
  rewrite nth_error_app1; [exact Hhist|].
  apply nth_error_Some. rewrite Hhist. discriminate.
Qed.

Lemma history_replays_file_witness :
  activeSession with_file
  = Some (ChatSession.mk (lit "chat_1700") (lit "Summarise this")
            [notes_message; ChatMessage.mk ai (lit "Sure") None] 1700)
  /\ canSend (run follow_ups with_file) = true
  /\ exists st0 loc,
      sendMessage_begin 1900 1900 (run follow_ups with_file) = Begun st0 loc
      /\ nth_error (buildHistory (ChatSession.messages (currentSession loc))) 0
         = Some (Content.mk (lit "user")
                   [InlineDataPart (lit "text/plain") (lit "ICB0d28gd29yZHMg");
                    TextPart (lit "Summarise this")])
      /\ nth_error (request loc) 0
         = Some (Content.mk (lit "user")
                   [InlineDataPart (lit "text/plain") (lit "ICB0d28gd29yZHMg");
                    TextPart (lit "Summarise this")]).
Proof.
  split; [reflexivity|]. split; [reflexivity|].
  exact (history_replays_file with_file
           (ChatSession.mk (lit "chat_1700") (lit "Summarise this")
              [notes_message; ChatMessage.mk ai (lit "Sure") None] 1700)
           [] [ChatMessage.mk ai (lit "Sure") None] notes_message notes_info
           (lit "ICB0d28gd29yZHMg") follow_ups 1900 1900
           eq_refl eq_refl eq_refl eq_refl eq_refl eq_refl eq_refl).
Defined.

(** ** An oversize choice after an accepted file *)

Lemma oversize_branch (file : File.t) (others : list File.t) (st : State) :
  (5 * 1024 * 1024 < File.size file)%N ->
  handleFileChange (file :: others) st
  = mkState (chatSessions st) (activeSessionId st) (isLoading st)
            (currentPrompt st) None (fileMetadata st)
            (Some (lit "File is too large. Max size is 5MB.")).
Proof.
  intros Hsize. unfold handleFileChange.
  assert (Hltb : (MAX_FILE_SIZE <? File.size file)%N = true)
    by (apply N.ltb_lt; exact Hsize).
  rewrite Hltb. reflexivity.
Qed.

(** C10: when file metadata is stored and an oversize file is then chosen,
    [handleFileChange] sets the size error and clears the attached file
    but leaves the stored metadata; the next send puts that metadata on
    its user message and, when its base64 content is not empty, sends the
    inline data part of the earlier file before the prompt text. *)
Theorem oversize_keeps_earlier_metadata (st : State) (m : FileMetadata.t)
    (file : File.t) (others : list File.t) (now created : N) :
  fileMetadata st = Some m ->
  (5 * 1024 * 1024 < File.size file)%N ->
  let st1 := handleFileChange (file :: others) st in
  fileMetadata st1 = Some m
  /\ attachedFile st1 = None
  /\ error st1 = Some (lit "File is too large. Max size is 5MB.")
  /\ exists st2 loc,
      sendMessage_begin now created st1 = Begun st2 loc
      /\ fileMeta loc = Some m
      /\ ChatSession.messages (currentSession loc)
         = ChatSession.messages (sessionFor now created st)
           ++ [ChatMessage.mk user (trim (currentPrompt st)) (Some m);
               ChatMessage.mk ai [] None]
      /\ (forall data,
             FileMetadata.base64Content m = Some data ->
             truthy data = true ->
             request loc
             = buildHistory (ChatSession.messages (currentSession loc))
               ++ [Content.mk (lit "user")
                     [InlineDataPart (FileMetadata.type m) data;
                      TextPart (trim (currentPrompt st))]]).
Proof.
  intros Hmeta Hsize st1. subst st1.
  rewrite (oversize_branch file others st Hsize).
  simpl. split; [exact Hmeta|]. split; [reflexivity|]. split; [reflexivity|].
  set (st1 := mkState _ _ _ _ _ _ _).
  assert (Hcan : canSend st1 = true).
  { unfold canSend, st1. simpl. rewrite Hmeta. apply orb_true_r. }
  destruct (sendMessage_begin_active now created st1 Hcan)
    as [st2 [loc [Hbegin [_ [Hcur [_ [Hprompt Hfile]]]]]]].
  exists st2, loc. split; [exact Hbegin|].
  assert (Hfile' : fileMeta loc = Some m).
  { rewrite Hfile. exact Hmeta. }
  split; [exact Hfile'|]. split.
  - rewrite Hcur. unfold begunSession, userMessageOf, sessionFor, st1. simpl.
    rewrite Hmeta. reflexivity.
  - intros data Hdata Htruthy.
    unfold request, GeminiService.requestContents.
    rewrite Hfile', Hdata, Htruthy, Hprompt. reflexivity.
Qed.

Lemma oversize_keeps_earlier_metadata_witness :
  fileMetadata oversize_after_notes = Some notes_info
  /\ (5 * 1024 * 1024 < File.size big_txt)%N
  /\ fileMetadata (handleFileChange [big_txt] oversize_after_notes)
     = Some notes_info
  /\ exists st2 loc,
      sendMessage_begin 1700 1700
        (handleFileChange [big_txt] oversize_after_notes) = Begun st2 loc
      /\ request loc
         = [Content.mk (lit "user")
              [InlineDataPart (lit "text/plain") (lit "ICB0d28gd29yZHMg");
               TextPart (lit "Summarise this")]].
Proof.
  split; [reflexivity|]. split; [reflexivity|].
  destruct (oversize_keeps_earlier_metadata oversize_after_notes notes_info
              big_txt [] 1700 1700 eq_refl eq_refl)
    as [Hmeta [_ [_ [st2 [loc [Hbegin [_ [Hmsgs Hreq]]]]]]]].
  split; [exact Hmeta|].
  exists st2, loc. split; [exact Hbegin|].
  rewrite (Hreq (lit "ICB0d28gd29yZHMg") eq_refl eq_refl).
  rewrite Hmsgs. reflexivity.
Defined.

(** * Further properties of the sources *)

(** ** [trim] and blank strings *)

Lemma dropWhile_all (p : N -> bool) (s : jsstring) :
  forallb p s = true -> dropWhile p s = [].
Proof.
  induction s as [|c r IH]; simpl; [reflexivity|].
  intros H. apply andb_true_iff in H as [Hc Hr]. rewrite Hc. now apply IH.
Qed.

Lemma forallb_app_true (p : N -> bool) (a b : jsstring) :
  forallb p (a ++ b) = true <-> forallb p a = true /\ forallb p b = true.
Proof. rewrite forallb_app. apply andb_true_iff. Qed.

(** [trim] leaves nothing exactly of the strings made of white space. *)
Lemma trim_blank (s : jsstring) :
  truthy (trim s) = false <-> forallb isWhiteSpace s = true.
Proof.
  split.
  - intros Hblank.
    assert (Htrim : trim s = []) by (destruct (trim s); [reflexivity | discriminate]).
    destruct (dropWhile_split isWhiteSpace s) as [w1 [Hs Hw1]].
    destruct (trimEnd_split (trimStart s)) as [w2 [Hts Hw2]].
    fold (trim s) in Hts. rewrite Htrim in Hts. simpl in Hts.
    fold (trimStart s) in Hs. rewrite Hts in Hs. rewrite Hs.
    apply forallb_app_true. now split.
  - intros Hws. unfold trim, trimStart, trimEnd.
    rewrite (dropWhile_all isWhiteSpace s Hws). reflexivity.
Qed.

(** ** The markdown pipe, on what it does not render *)

(** X5: [transform] returns the empty string exactly when the value is
    null or undefined, is made of white space only, or makes the parser
    throw; a parse error is never passed on to the view. *)
Theorem transform_empty_cases
    (marked_parse : jsstring -> option jsstring) (value : option jsstring) :
  MarkdownPipe.transform marked_parse value = MarkdownPipe.PlainString []
  <-> (value = None
       \/ exists v,
           value = Some v
           /\ (forallb isWhiteSpace v = true \/ marked_parse v = None)).
Proof.
  unfold MarkdownPipe.transform, MarkdownPipe.bypassSecurityTrustHtml.
  destruct value as [v|]; [|split; [now left | reflexivity]].
  destruct (truthy (trim v)) eqn:Htrim; simpl.
  - destruct (marked_parse v) as [raw|] eqn:Hparse.
    + split; [discriminate|].
      intros [Hnone | [v' [[= <-] [Hws | Hfail]]]]; try congruence.
      apply trim_blank in Hws. congruence.
    + split; [|reflexivity]. intros _. right. exists v. now split; [|right].
  - split; [|reflexivity]. intros _. right. exists v.
    split; [reflexivity|]. left. now apply trim_blank.
Qed.

Lemma transform_empty_cases_witness :
  forallb isWhiteSpace (lit "   ") = true
  /\ MarkdownPipe.transform passthrough_parse (Some (lit "   "))
     = MarkdownPipe.PlainString [].
Proof.
  split; [reflexivity|].
  apply (proj2 (transform_empty_cases passthrough_parse (Some (lit "   ")))).
  right. exists (lit "   "). split; [reflexivity|]. left. reflexivity.
Defined.

(** ** The base64 content of a data URL *)

Lemma splitCharFrom_no_sep (sep : N) (s cur : jsstring) :
  forallb (fun c => negb (c =? sep)%N) s = true ->
  splitCharFrom sep cur s = [cur ++ s].
Proof.
  revert cur; induction s as [|c r IH]; intros cur; simpl.
  - intros _. now rewrite app_nil_r.
  - intros H. apply andb_true_iff in H as [Hc Hr].
    apply negb_true_iff in Hc. rewrite Hc, IH by exact Hr.
    now rewrite <- app_assoc.
Qed.

Lemma splitCharFrom_first (sep : N) (header rest cur : jsstring) :
  forallb (fun c => negb (c =? sep)%N) header = true ->
  splitCharFrom sep cur (header ++ sep :: rest)
  = (cur ++ header) :: splitCharFrom sep [] rest.
Proof.
  revert cur; induction header as [|c r IH]; intros cur; simpl.
  - intros _. now rewrite N.eqb_refl, app_nil_r.
  - intros H. apply andb_true_iff in H as [Hc Hr].
    apply negb_true_iff in Hc. rewrite Hc, IH by exact Hr.
    now rewrite <- app_assoc.
Qed.

(** X1: when the read succeeds, [fileToBase64] resolves to what follows
    the comma of a data URL whose header and payload hold no comma, and to
    [undefined] for a result without any comma (the bare "data:" of an
    empty file); when the read fails it rejects. *)
Theorem fileToBase64_payload (file : File.t) (header payload : jsstring) :
  forallb notComma header = true ->
  forallb notComma payload = true ->
  (File.dataURL file = Resolved (header ++ lit "," ++ payload) ->
   fileToBase64 file = Resolved (Some payload))
  /\ (File.dataURL file = Resolved header ->
      fileToBase64 file = Resolved None)
  /\ (File.dataURL file = Rejected -> fileToBase64 file = Rejected).
Proof.
  intros Hheader Hpayload. unfold fileToBase64, splitChar.
  split; [|split]; intros ->; [| |reflexivity].
  - change (lit ",") with [44%N]. simpl app.
    rewrite splitCharFrom_first by exact Hheader.
    rewrite splitCharFrom_no_sep by exact Hpayload. reflexivity.
  - rewrite splitCharFrom_no_sep by exact Hheader. reflexivity.
Qed.

Lemma fileToBase64_payload_witness :
  forallb notComma (lit "data:text/plain;base64") = true
  /\ forallb notComma (lit "ICB0d28gd29yZHMg") = true
  /\ fileToBase64 notes_txt = Resolved (Some (lit "ICB0d28gd29yZHMg")).
Proof.
  split; [reflexivity|]. split; [reflexivity|].
  apply (proj1 (fileToBase64_payload notes_txt (lit "data:text/plain;base64")
                  (lit "ICB0d28gd29yZHMg") eq_refl eq_refl)).
  reflexivity.
Defined.

(** ** Word and character counts *)

Lemma countTokens_bound (s : jsstring) :
  2 * countTokens true s <= length s + 1
  /\ 2 * countTokens false s <= length s.
Proof.
  induction s as [|c r [IHt IHf]]; simpl; [lia|].
  destruct (isWhiteSpace c); lia.
Qed.

(** X2: the metadata stored for a text file whose reads resolve never
    counts more words than characters: twice the word count is at most the
    character count plus one, words being separated by white space. *)
Theorem processFile_words_within_chars (file : File.t) (st : State) :
  startsWith (File.type file) (lit "text/") = true ->
  processFile_rejects file = false ->
  exists m,
    fileMetadata (processFile file st) = Some m
    /\ 2 * FileMetadata.wordCount m <= FileMetadata.charCount m + 1
    /\ FileMetadata.wordCount m <= FileMetadata.charCount m.
Proof.
  intros Htype Hreads. unfold processFile, processFile_rejects in *.
  destruct (fileToBase64 file) as [base64Content|]; [|discriminate].
  rewrite Htype in *.
  destruct (File.text file) as [textContent|]; [|discriminate].
  eexists. split; [reflexivity|]. simpl.
  rewrite wordCountOf_tokenCount. unfold tokenCount.
  pose proof (countTokens_bound textContent) as [Ht _].
  split; [exact Ht|].
  destruct textContent as [|c r]; simpl in *; [lia|].
  destruct (isWhiteSpace c); lia.
Qed.

Lemma processFile_words_within_chars_witness :
  startsWith (File.type notes_txt) (lit "text/") = true
  /\ processFile_rejects notes_txt = false
  /\ exists m,
      fileMetadata (processFile notes_txt initial) = Some m
      /\ FileMetadata.wordCount m <= FileMetadata.charCount m.
Proof.
  split; [reflexivity|]. split; [reflexivity|].
  destruct (processFile_words_within_chars notes_txt initial eq_refl eq_refl)
    as [m [Hm [_ Hle]]].
  exists m. split; assumption.
Defined.

(** ** Accepted files *)

Lemma within_limit_ltb (file : File.t) :
  (File.size file <= 5 * 1024 * 1024)%N ->
  (MAX_FILE_SIZE <? File.size file)%N = false.
Proof.
  intros Hsize. apply N.ltb_ge. exact Hsize.
Qed.

Lemma processFile_stores (file : File.t) (st : State) :
  processFile_rejects file = false ->
  exists base64Content wordCount charCount pageCount,
    fileToBase64 file = Resolved base64Content
    /\ fileMetadata (processFile file st)
       = Some (FileMetadata.mk (File.name file) (File.size file)
                 (File.type file) wordCount charCount base64Content
                 pageCount).
Proof.
  unfold processFile, processFile_rejects.
  destruct (fileToBase64 file) as [base64Content|]; [|discriminate].
  destruct (startsWith (File.type file) (lit "text/")).
  - destruct (File.text file) as [textContent|]; [|discriminate].
    intros _. now do 4 eexists.
  - intros _.
    destruct (eqb (File.type file) (lit "application/pdf"));
      [destruct (File.numPages file)|]; now do 4 eexists.
Qed.

Lemma processFile_rejected (file : File.t) (st : State) :
  processFile_rejects file = true -> processFile file st = st.
Proof.
  unfold processFile, processFile_rejects.
  destruct (fileToBase64 file) as [base64Content|]; [|reflexivity].
  destruct (startsWith (File.type file) (lit "text/")); [|discriminate].
  destruct (File.text file); [discriminate | reflexivity].
Qed.

(** X3: a file of at most 5 MiB becomes the attached file whatever was
    attached before, the sessions, the active id and the prompt being
    untouched.  When its reads resolve, the stored metadata is replaced by
    one with its name, size, type and base64 content, and a send can
    follow even with an empty prompt.  When a read is rejected, nothing is
    stored: the file is attached, the error signal is cleared, and the
    metadata is left as it was. *)
Theorem handleFileChange_accepts (file : File.t) (others : list File.t)
    (st : State) :
  (File.size file <= 5 * 1024 * 1024)%N ->
  let st' := handleFileChange (file :: others) st in
  attachedFile st' = Some file
  /\ chatSessions st' = chatSessions st
  /\ activeSessionId st' = activeSessionId st
  /\ currentPrompt st' = currentPrompt st
  /\ (processFile_rejects file = false ->
      (exists m,
          fileMetadata st' = Some m
          /\ FileMetadata.name m = File.name file
          /\ FileMetadata.size m = File.size file
          /\ FileMetadata.type m = File.type file
          /\ fileToBase64 file = Resolved (FileMetadata.base64Content m))
      /\ canSend st' = true)
  /\ (processFile_rejects file = true ->
      fileMetadata st' = fileMetadata st /\ error st' = None).
Proof.
  intros Hsize st'. subst st'. unfold handleFileChange.
  rewrite (within_limit_ltb file Hsize).
  set (st1 := set_error None (set_attachedFile (Some file) st)).
  destruct (processFile_frame file st1) as [Hs [Ha [_ [Hp Hf]]]].
  split; [now rewrite Hf|]. split; [now rewrite Hs|].
  split; [now rewrite Ha|]. split; [now rewrite Hp|]. split.
  - intros Hreads.
    destruct (processFile_stores file st1 Hreads)
      as [b64 [wc [cc [pc [Hurl Hmeta]]]]].
    split.
    + eexists. split; [exact Hmeta|]. now repeat split.
    + unfold canSend. rewrite Hmeta. apply orb_true_r.
  - intros Hreads. rewrite (processFile_rejected file st1 Hreads).
    now split.
Qed.

Lemma handleFileChange_accepts_witness :
  (File.size unreadable_txt <= 5 * 1024 * 1024)%N
  /\ processFile_rejects unreadable_txt = true
  /\ attachedFile (handleFileChange [unreadable_txt] oversize_after_notes)
     = Some unreadable_txt
  /\ fileMetadata (handleFileChange [unreadable_txt] oversize_after_notes)
     = Some notes_info.
Proof.
  assert (Hsize : (File.size unreadable_txt <= 5 * 1024 * 1024)%N)
    by (apply N.leb_le; reflexivity).
  split; [exact Hsize|]. split; [reflexivity|].
  destruct (handleFileChange_accepts unreadable_txt [] oversize_after_notes
              Hsize) as [Hfile [_ [_ [_ [_ Hrejected]]]]].
  split; [exact Hfile|].
  destruct (Hrejected eq_refl) as [Hmeta _]. rewrite Hmeta. reflexivity.
Defined.

(** X4: an accepted file that is neither textual nor a PDF, and whose
    read resolves, gets zero word and character counts and no page count,
    and no error is shown. *)
Theorem handleFileChange_other_type (file : File.t) (others : list File.t)
    (st : State) :
  (File.size file <= 5 * 1024 * 1024)%N ->
  startsWith (File.type file) (lit "text/") = false ->
  File.type file <> lit "application/pdf" ->
  processFile_rejects file = false ->
  let st' := handleFileChange (file :: others) st in
  error st' = None
  /\ exists m,
      fileMetadata st' = Some m
      /\ FileMetadata.wordCount m = 0
      /\ FileMetadata.charCount m = 0
      /\ FileMetadata.pageCount m = None.
Proof.
  intros Hsize Htext Hpdf Hreads st'. subst st'. unfold handleFileChange.
  rewrite (within_limit_ltb file Hsize).
  unfold processFile, processFile_rejects in *.
  destruct (fileToBase64 file) as [base64Content|]; [|discriminate].
  apply eqb_neq in Hpdf. rewrite Htext, Hpdf. simpl.
  split; [reflexivity|]. eexists. split; [reflexivity|]. repeat split.
Qed.

Lemma handleFileChange_other_type_witness :
  (File.size photo_png <= 5 * 1024 * 1024)%N
  /\ startsWith (File.type photo_png) (lit "text/") = false
  /\ File.type photo_png <> lit "application/pdf"
  /\ processFile_rejects photo_png = false
  /\ error (handleFileChange [photo_png] initial) = None.
Proof.
  assert (Hsize : (File.size photo_png <= 5 * 1024 * 1024)%N)
    by (apply N.leb_le; reflexivity).
  assert (Hpdf : File.type photo_png <> lit "application/pdf")
    by (apply eqb_neq; reflexivity).
  split; [exact Hsize|]. split; [reflexivity|]. split; [exact Hpdf|].
  split; [reflexivity|].
  exact (proj1 (handleFileChange_other_type photo_png [] initial
                  Hsize eq_refl Hpdf eq_refl)).
Defined.

(** X6: an accepted PDF whose data URL read resolves gets zero word and
    character counts and the page count pdf.js reports; when pdf.js
    throws, the metadata is stored all the same, without a page count, the
    error signal gets the page count message, and the file can still be
    sent. *)
Theorem handleFileChange_pdf (file : File.t) (others : list File.t)
    (st : State) :
  (File.size file <= 5 * 1024 * 1024)%N ->
  File.type file = lit "application/pdf" ->
  processFile_rejects file = false ->
  let st' := handleFileChange (file :: others) st in
  (exists m,
      fileMetadata st' = Some m
      /\ FileMetadata.wordCount m = 0
      /\ FileMetadata.charCount m = 0
      /\ FileMetadata.pageCount m = File.numPages file
      /\ fileToBase64 file = Resolved (FileMetadata.base64Content m))
  /\ error st'
     = match File.numPages file with
       | Some _ => None
       | None => Some (lit "Could not read page count from the PDF file.")
       end
  /\ canSend st' = true.
Proof.
  intros Hsize Hpdf Hreads st'. subst st'. unfold canSend, handleFileChange.
  rewrite (within_limit_ltb file Hsize).
  unfold processFile, processFile_rejects in *.
  destruct (fileToBase64 file) as [base64Content|]; [|discriminate].
  rewrite Hpdf.
  change (startsWith (lit "application/pdf") (lit "text/")) with false.
  rewrite eqb_refl. cbv iota.
  destruct (File.numPages file); simpl; rewrite orb_true_r;
    (split; [|split; reflexivity]);
    eexists; (split; [reflexivity|]); repeat split.
Qed.

Lemma handleFileChange_pdf_witness :
  (File.size broken_pdf <= 5 * 1024 * 1024)%N
  /\ File.type broken_pdf = lit "application/pdf"
  /\ processFile_rejects broken_pdf = false
  /\ error (handleFileChange [broken_pdf] initial)
     = Some (lit "Could not read page count from the PDF file.")
  /\ canSend (handleFileChange [broken_pdf] initial) = true.
Proof.
  assert (Hsize : (File.size broken_pdf <= 5 * 1024 * 1024)%N)
    by (apply N.leb_le; reflexivity).
  split; [exact Hsize|]. split; [reflexivity|]. split; [reflexivity|].
  destruct (handleFileChange_pdf broken_pdf [] initial Hsize eq_refl eq_refl)
    as [_ [Herr Hcan]].
  split; [exact Herr | exact Hcan].
Defined.

(** ** The session store: create, select, delete *)

Lemma filter_other_ids_idem (id : jsstring) (sessions : list ChatSession.t) :
  filter (fun s => negb (eqb (ChatSession.id s) id))
         (filter (fun s => negb (eqb (ChatSession.id s) id)) sessions)
  = filter (fun s => negb (eqb (ChatSession.id s) id)) sessions.
Proof.
  induction sessions as [|x rest IH]; simpl; [reflexivity|].
  destruct (negb (eqb (ChatSession.id x) id)) eqn:Hx; simpl;
    [rewrite Hx; now f_equal | exact IH].
Qed.

Lemma filter_other_ids_absent (id : jsstring) (sessions : list ChatSession.t) :
  ~ In id (map ChatSession.id sessions) ->
  filter (fun s => negb (eqb (ChatSession.id s) id)) sessions = sessions.
Proof.
  induction sessions as [|x rest IH]; simpl; [reflexivity|].
  intros Hnot.
  assert (Hx : eqb (ChatSession.id x) id = false) by (apply eqb_neq; tauto).
  rewrite Hx. simpl. f_equal. apply IH. tauto.
Qed.

Lemma state_ext (st1 st2 : State) :
  chatSessions st1 = chatSessions st2 ->
  activeSessionId st1 = activeSessionId st2 ->
  isLoading st1 = isLoading st2 ->
  currentPrompt st1 = currentPrompt st2 ->
  attachedFile st1 = attachedFile st2 ->
  fileMetadata st1 = fileMetadata st2 ->
  error st1 = error st2 ->
  st1 = st2.
Proof.
  destruct st1, st2. simpl. intros. now subst.
Qed.

Lemma deleteChat_frame (id : jsstring) (st : State) :
  isLoading (deleteChat id st) = isLoading st
  /\ currentPrompt (deleteChat id st) = currentPrompt st
  /\ attachedFile (deleteChat id st) = attachedFile st
  /\ fileMetadata (deleteChat id st) = fileMetadata st
  /\ error (deleteChat id st) = error st.
Proof.
  unfold deleteChat, set_activeSessionId, set_chatSessions. simpl.
  destruct (activeSessionId st) as [a|]; [|now repeat split].
  destruct (eqb a id); now repeat split.
Qed.

(** X7: deleting is idempotent, and deleting an id that is neither listed
    nor active changes nothing. *)
Theorem deleteChat_idempotent (id : jsstring) (st : State) :
  deleteChat id (deleteChat id st) = deleteChat id st
  /\ (~ In id (map ChatSession.id (chatSessions st)) ->
      activeSessionId st <> Some id ->
      deleteChat id st = st).
Proof.
  split.
  - destruct (deleteChat_frame id (deleteChat id st))
      as [Hl [Hp [Hf [Hm He]]]].
    apply state_ext; try assumption.
    + rewrite !deleteChat_sessions. apply filter_other_ids_idem.
    + rewrite (deleteChat_active id (deleteChat id st)).
      destruct (activeSessionId (deleteChat id st)) as [a|] eqn:Ha;
        [|reflexivity].
      destruct (eqb a id) eqn:Heq; [|reflexivity].
      apply eqb_eq in Heq. subst a. exfalso.
      rewrite deleteChat_active in Ha.
      destruct (activeSessionId st) as [b|] eqn:Hb.
      * destruct (eqb b id) eqn:Hbid.
        -- apply firstId_valid in Ha.
           rewrite deleteChat_sessions in Ha. apply in_ids_filter in Ha. tauto.
        -- apply eqb_neq in Hbid. congruence.
      * discriminate.
  - intros Hnot Hactive.
    destruct (deleteChat_frame id st) as [Hl [Hp [Hf [Hm He]]]].
    apply state_ext; try assumption.
    + rewrite deleteChat_sessions.
      apply (filter_other_ids_absent id (chatSessions st) Hnot).
    + rewrite deleteChat_active.
      destruct (activeSessionId st) as [a|] eqn:Ha; [|reflexivity].
      assert (Heq : eqb a id = false) by (apply eqb_neq; congruence).
      now rewrite Heq.
Qed.

Lemma deleteChat_idempotent_witness :
  ~ In (lit "chat_9") (map ChatSession.id (chatSessions two_chats))
  /\ activeSessionId two_chats <> Some (lit "chat_9")
  /\ deleteChat (lit "chat_9") two_chats = two_chats.
Proof.
  assert (Hnot : ~ In (lit "chat_9")
                     (map ChatSession.id (chatSessions two_chats))).
  { simpl. intros [H | [H | []]]; discriminate H. }
  assert (Hactive : activeSessionId two_chats <> Some (lit "chat_9"))
    by discriminate.
  split; [exact Hnot|]. split; [exact Hactive|].
  exact (proj2 (deleteChat_idempotent (lit "chat_9") two_chats) Hnot Hactive).
Defined.

(** X8: [startNewChat] puts a session without messages, titled
    "New Conversation", in front of the sessions it keeps in their order,
    makes it the active session even when its id is already in the list,
    and clears the prompt and the attachment that were pending. *)
Theorem startNewChat_fresh (now created : N) (st : State) :
  let st' := startNewChat now created st in
  chatSessions st'
  = ChatSession.mk (lit "chat_" ++ ofNumber now) (lit "New Conversation")
                   [] created :: chatSessions st
  /\ activeSession st'
     = Some (ChatSession.mk (lit "chat_" ++ ofNumber now)
                            (lit "New Conversation") [] created)
  /\ activeValid st'
  /\ currentPrompt st' = []
  /\ attachedFile st' = None
  /\ fileMetadata st' = None
  /\ isLoading st' = isLoading st
  /\ error st' = error st.
Proof.
  simpl. split; [reflexivity|]. split.
  - apply activeSession_startNewChat.
  - split; [|now repeat split]. unfold activeValid. simpl. now left.
Qed.

Lemma find_first {A} (f : A -> bool) (l : list A) (x : A) :
  find f l = Some x ->
  exists before after,
    l = before ++ x :: after
    /\ f x = true
    /\ Forall (fun y => f y = false) before.
Proof.
  induction l as [|y rest IH]; simpl; [discriminate|].
  destruct (f y) eqn:Hy.
  - intros [= <-]. exists [], rest. now repeat split.
  - intros Hfind. destruct (IH Hfind) as [before [after [Hl [Hx Hbefore]]]].
    exists (y :: before), after. rewrite Hl. repeat split; [assumption|].
    now constructor.
Qed.

(** X9: selecting the id of a listed session, the id not being empty,
    makes the first session with that id the active session: the sessions
    listed before it all have another id; selecting an id that is not
    listed leaves no active session. *)
Theorem selectChat_active (id : jsstring) (st : State) :
  (In id (map ChatSession.id (chatSessions st)) ->
   truthy id = true ->
   exists before s after,
     chatSessions st = before ++ s :: after
     /\ Forall (fun x => ChatSession.id x <> id) before
     /\ ChatSession.id s = id
     /\ activeSession (selectChat id st) = Some s)
  /\ (~ In id (map ChatSession.id (chatSessions st)) ->
      activeSession (selectChat id st) = None).
Proof.
  unfold activeSession, selectChat. simpl. split.
  - intros Hin Htruthy. rewrite Htruthy. simpl.
    destruct (find (fun s => eqb (ChatSession.id s) id) (chatSessions st))
      as [s|] eqn:Hfind.
    + destruct (find_first _ _ _ Hfind) as [before [after [Hl [Hs Hbefore]]]].
      exists before, s, after. split; [exact Hl|]. split.
      * rewrite Forall_forall in Hbefore |- *. intros x Hx.
        apply eqb_neq. now apply Hbefore.
      * split; [now apply eqb_eq | reflexivity].
    + apply in_map_iff in Hin as [s [Hid Hs]].
      pose proof (find_none _ _ Hfind s Hs) as Hne. simpl in Hne.
      rewrite Hid, eqb_refl in Hne. discriminate.
  - intros Hnot. destruct (negb (truthy id)); [reflexivity|].
    destruct (find (fun s => eqb (ChatSession.id s) id) (chatSessions st))
      as [s|] eqn:Hfind; [|reflexivity].
    apply find_some in Hfind as [Hs Heq]. apply eqb_eq in Heq.
    exfalso. apply Hnot. apply in_map_iff. now exists s.
Qed.

Lemma selectChat_active_witness :
  In (lit "chat_1") (map ChatSession.id (chatSessions twin_chats))
  /\ truthy (lit "chat_1") = true
  /\ exists s,
      activeSession (selectChat (lit "chat_1") twin_chats) = Some s
      /\ ChatSession.title s = lit "one".
Proof.
  assert (Hin : In (lit "chat_1")
                   (map ChatSession.id (chatSessions twin_chats))).
  { left. reflexivity. }
  split; [exact Hin|]. split; [reflexivity|].
  destruct (proj1 (selectChat_active (lit "chat_1") twin_chats) Hin eq_refl)
    as [before [s [after [_ [_ [_ Hact]]]]]].
  exists s. split; [exact Hact|].
  assert (Hs : Some s = Some (ChatSession.mk (lit "chat_1") (lit "one") [] 1))
    by (rewrite <- Hact; reflexivity).
  injection Hs as ->. reflexivity.
Defined.

(** ** The send orchestrator: what a send leaves of the store *)

Lemma writeBack_writeBack (c1 c2 : ChatSession.t)
    (sessions : list ChatSession.t) :
  ChatSession.id c2 = ChatSession.id c1 ->
  writeBack c2 (writeBack c1 sessions) = writeBack c2 sessions.
Proof.
  intros Hid. unfold writeBack. rewrite map_map. apply map_ext.
  intros s. rewrite Hid.
  destruct (eqb (ChatSession.id s) (ChatSession.id c1)) eqn:Hs;
    [now rewrite eqb_refl | now rewrite Hs].
Qed.

Lemma writeBack_ids (c : ChatSession.t) (sessions : list ChatSession.t) :
  map ChatSession.id (writeBack c sessions) = map ChatSession.id sessions.
Proof.
  unfold writeBack. rewrite map_map. apply map_ext. intros s.
  destruct (eqb (ChatSession.id s) (ChatSession.id c)) eqn:Hs;
    [|reflexivity].
  apply eqb_eq in Hs. now rewrite Hs.
Qed.

Lemma find_base (now created : N) (st : State) :
  find (fun x => eqb (ChatSession.id x)
                     (ChatSession.id (sessionFor now created st)))
       (baseSessions now created st)
  = Some (sessionFor now created st)
  /\ truthy (ChatSession.id (sessionFor now created st)) = true
  /\ (activeSession st <> None ->
      activeSessionId st = Some (ChatSession.id (sessionFor now created st))).
Proof.
  unfold sessionFor, baseSessions.
  destruct (activeSession st) as [s|] eqn:Hact.
  - unfold activeSession in Hact.
    destruct (activeSessionId st) as [a|]; [|discriminate].
    destruct (truthy a) eqn:Ha; [|discriminate]. simpl in Hact.
    pose proof (find_some _ _ Hact) as [_ Hs]. apply eqb_eq in Hs.
    subst a. now repeat split.
  - simpl. rewrite eqb_refl. repeat split. congruence.
Qed.

(** The state and the locals with which the streaming call is reached. *)
Lemma sendMessage_begin_eq (now created : N) (st : State) :
  canSend st = true ->
  sendMessage_begin now created st
  = Begun (mkState (writeBack (begunSession now created st)
                              (baseSessions now created st))
                   (Some (ChatSession.id (sessionFor now created st)))
                   true [] None None None)
          (mkSending (begunSession now created st) placeholder
                     (trim (currentPrompt st)) (fileMetadata st)).
Proof.
  intros Hcan. unfold sendMessage_begin.
  assert (Hpre : negb (truthy (trim (currentPrompt st)))
                 && negb (match fileMetadata st with
                          | Some _ => true | None => false end) = false).
  { unfold canSend in Hcan. rewrite <- negb_orb, Hcan. reflexivity. }
  rewrite Hpre.
  assert (Hsame : activeSession (set_error None (set_isLoading true st))
                  = activeSession st) by reflexivity.
  rewrite Hsame.
  destruct (find_base now created st) as [_ [_ Hid]].
  unfold begunSession, titleAfter, baseSessions, sessionFor in *.
  destruct (activeSession st) as [s|] eqn:Hact.
  - rewrite Hsame.
    pose proof (pushed_session (trim (currentPrompt st)) (fileMetadata st) s)
      as Hcur.
    cbv zeta in Hcur. cbv zeta. rewrite Hcur.
    rewrite <- Hid by discriminate. reflexivity.
  - rewrite activeSession_startNewChat. reflexivity.
Qed.

Lemma onChunk_sessions (c : option jsstring) (st : State) (loc : Sending)
    (l : list ChatSession.t) :
  chatSessions st = writeBack (currentSession loc) l ->
  chatSessions (fst (onChunk c (st, loc)))
  = writeBack (currentSession (snd (onChunk c (st, loc)))) l.
Proof.
  intros Hst. simpl. rewrite Hst. now apply writeBack_writeBack.
Qed.

Lemma onError_sessions (st : State) (loc : Sending)
    (l : list ChatSession.t) :
  chatSessions st = writeBack (currentSession loc) l ->
  chatSessions (fst (onError (st, loc)))
  = writeBack (currentSession (snd (onError (st, loc)))) l.
Proof.
  intros Hst. simpl. rewrite Hst. now apply writeBack_writeBack.
Qed.

Lemma consume_sessions (chunks : list (option jsstring)) :
  forall (st : State) (loc : Sending) (l : list ChatSession.t),
    chatSessions st = writeBack (currentSession loc) l ->
    chatSessions (fst (consume chunks (st, loc)))
    = writeBack (currentSession (snd (consume chunks (st, loc)))) l.
Proof.
  induction chunks as [|c chunks IH]; intros st loc l Hst; [exact Hst|].
  change (consume (c :: chunks) (st, loc))
    with (consume chunks (onChunk c (st, loc))).
  pose proof (onChunk_sessions c st loc l Hst) as Hstep.
  destruct (onChunk c (st, loc)) as [st1 loc1]. now apply IH.
Qed.

(** The sessions a send that passes the precondition leaves: the store it
    started from, with the settled session written over the entries that
    have its id. *)
Lemma sendMessage_sessions (now created : N) (stream : Stream) (st : State) :
  canSend st = true ->
  chatSessions (sendMessage now created stream st)
  = writeBack (settledSession now created stream st)
              (baseSessions now created st).
Proof.
  intros Hcan. unfold sendMessage.
  rewrite (sendMessage_begin_eq now created st Hcan).
  destruct (find_base now created st) as [Hfind [_ _]].
  set (st0 := mkState _ _ _ _ _ _ _). set (loc0 := mkSending _ _ _ _).
  assert (Hst0 : chatSessions st0
                 = writeBack (currentSession loc0)
                             (baseSessions now created st)) by reflexivity.
  assert (Hfind0 :
    find (fun x => eqb (ChatSession.id x)
                       (ChatSession.id (currentSession loc0)))
         (chatSessions st0) = Some (currentSession loc0)).
  { now apply find_writeBack with (s := sessionFor now created st). }
  assert (Hmsgs :
    ChatSession.messages (currentSession loc0)
    = (ChatSession.messages (sessionFor now created st) ++ [userMessageOf st])
      ++ [aiMessage loc0]).
  { simpl. now rewrite <- app_assoc. }
  destruct (consume_spec (fragments stream) st0 loc0 _ Hfind0 Hmsgs)
    as [sessions1 [Hrun Hfind1]].
  pose proof (consume_sessions (fragments stream) st0 loc0 _ Hst0) as Hs1.
  rewrite Hrun in Hs1 |- *. cbv zeta.
  unfold settledSession, settledText.
  destruct (throws stream).
  - match goal with
    | |- context [onError (?s, ?l)] =>
        pose proof (onError_sessions s l (baseSessions now created st) Hs1)
          as Hs2;
        destruct (onError_spec s l
                    (ChatSession.messages (sessionFor now created st)
                     ++ [userMessageOf st])
                    Hfind1 eq_refl) as [sessions2 [Herr _]]
    end.
    rewrite Herr in Hs2 |- *. simpl in Hs2 |- *. rewrite Hs2.
    unfold set_messages, set_text. simpl. now rewrite <- app_assoc.
  - simpl in Hs1 |- *. rewrite Hs1.
    unfold set_messages, set_text. simpl. now rewrite <- app_assoc.
Qed.

(** X10: a send with a prompt made of white space only (or empty) and no
    stored file metadata does nothing: no signal changes, no session is
    created and no request is made. *)
Theorem sendMessage_blank_is_noop (now created : N) (stream : Stream)
    (st : State) :
  forallb isWhiteSpace (currentPrompt st) = true ->
  fileMetadata st = None ->
  sendMessage now created stream st = st
  /\ sendMessage_begin now created st = Returned st.
Proof.
  intros Hblank Hmeta. apply trim_blank in Hblank.
  assert (Hcan : canSend st = false).
  { unfold canSend. now rewrite Hblank, Hmeta. }
  split; [now apply sendMessage_skipped|].
  unfold sendMessage_begin. unfold canSend in Hcan.
  rewrite <- negb_orb, Hcan. reflexivity.
Qed.

Lemma sendMessage_blank_is_noop_witness :
  forallb isWhiteSpace (currentPrompt (set_currentPrompt (lit "   ") two_chats))
  = true
  /\ sendMessage 1700 1700 (mkStream [Some (lit "Hi")] false)
       (set_currentPrompt (lit "   ") two_chats)
     = set_currentPrompt (lit "   ") two_chats.
Proof.
  split; [reflexivity|].
  exact (proj1 (sendMessage_blank_is_noop 1700 1700 (mkStream [Some (lit "Hi")] false)
                  (set_currentPrompt (lit "   ") two_chats)
                  eq_refl eq_refl)).
Defined.

(** X11: the branch of [sendMessage] commented "Should not happen" is
    dead: the part before the streaming call returns early only when the
    precondition fails, and then with the state untouched, so the error
    "Could not create or find a chat session." is never set; otherwise the
    streaming call is reached with loading set and the error cleared. *)
Theorem sendMessage_begin_total (now created : N) (st : State) :
  (canSend st = false /\ sendMessage_begin now created st = Returned st)
  \/ (canSend st = true
      /\ exists st0 loc,
          sendMessage_begin now created st = Begun st0 loc
          /\ isLoading st0 = true
          /\ error st0 = None
          /\ activeSession st0 = Some (currentSession loc)).
Proof.
  destruct (canSend st) eqn:Hcan.
  - right. split; [reflexivity|].
    destruct (sendMessage_begin_active now created st Hcan)
      as [st0 [loc [Hbegin [Hact _]]]].
    exists st0, loc. split; [exact Hbegin|].
    rewrite (sendMessage_begin_eq now created st Hcan) in Hbegin.
    injection Hbegin as <- _. now repeat split.
  - left. split; [reflexivity|].
    unfold sendMessage_begin. unfold canSend in Hcan.
    rewrite <- negb_orb, Hcan. reflexivity.
Qed.

(** X12: a send that passes the precondition settles the signals the same
    way whether the stream ends or throws: loading is cleared, the prompt
    and the attachment are cleared, the active id is the id of the session
    it worked on, and the error signal is set exactly when the stream
    threw, an earlier error being cleared otherwise; the input being
    cleared, a second send right after it does nothing. *)
Theorem sendMessage_settles_signals (now created : N) (stream : Stream)
    (st : State) :
  canSend st = true ->
  let st' := sendMessage now created stream st in
  isLoading st' = false
  /\ currentPrompt st' = []
  /\ attachedFile st' = None
  /\ fileMetadata st' = None
  /\ activeSessionId st'
     = Some (ChatSession.id (sessionFor now created st))
  /\ (throws stream = false -> error st' = None)
  /\ (throws stream = true -> error st' <> None)
  /\ canSend st' = false.
Proof.
  intros Hcan st'. subst st'.
  destruct (sendMessage_spec now created stream st Hcan)
    as [sessions' [Hst _]].
  rewrite Hst. simpl. repeat split.
  - now intros ->.
  - intros ->. discriminate.
Qed.

Lemma sendMessage_settles_signals_witness :
  canSend oversize_after_notes = true
  /\ fileMetadata (sendMessage 1700 1700 (mkStream [] true)
                     oversize_after_notes) = None
  /\ isLoading (sendMessage 1700 1700 (mkStream [] true)
                  oversize_after_notes) = false.
Proof.
  split; [reflexivity|].
  destruct (sendMessage_settles_signals 1700 1700 (mkStream [] true)
              oversize_after_notes eq_refl)
    as [Hload [_ [_ [Hmeta _]]]].
  split; [exact Hmeta | exact Hload].
Defined.

(** X13: a send that passes the precondition keeps the list of sessions
    in place: the ids are those of the store it started from (with the id
    of the session it created in front when none was active), in the same
    order, and every session with another id than the one it worked on is
    left as it was, at its position. *)
Theorem sendMessage_keeps_other_sessions (now created : N) (stream : Stream)
    (st : State) :
  canSend st = true ->
  let st' := sendMessage now created stream st in
  map ChatSession.id (chatSessions st')
  = map ChatSession.id (baseSessions now created st)
  /\ length (chatSessions st') = length (baseSessions now created st)
  /\ (forall i s,
         nth_error (baseSessions now created st) i = Some s ->
         ChatSession.id s <> ChatSession.id (sessionFor now created st) ->
         nth_error (chatSessions st') i = Some s)
  /\ (forall i s,
         nth_error (baseSessions now created st) i = Some s ->
         ChatSession.id s = ChatSession.id (sessionFor now created st) ->
         nth_error (chatSessions st') i
         = Some (settledSession now created stream st)).
Proof.
  intros Hcan st'. subst st'.
  rewrite (sendMessage_sessions now created stream st Hcan).
  split; [apply writeBack_ids|]. split.
  - unfold writeBack. apply length_map.
  - split; intros i s Hnth Hid; unfold writeBack;
      rewrite nth_error_map, Hnth; simpl.
    + apply eqb_neq in Hid. now rewrite Hid.
    + rewrite Hid. unfold settledSession at 1. simpl. now rewrite eqb_refl.
Qed.

Lemma sendMessage_keeps_other_sessions_witness :
  canSend (set_currentPrompt (lit "Hello") two_chats) = true
  /\ nth_error
       (chatSessions (sendMessage 1700 1700 (mkStream [Some (lit "Hi")] false)
                        (set_currentPrompt (lit "Hello") two_chats))) 1
     = Some (ChatSession.mk (lit "chat_1") (lit "first") [] 1).
Proof.
  split; [reflexivity|].
  destruct (sendMessage_keeps_other_sessions 1700 1700
              (mkStream [Some (lit "Hi")] false)
              (set_currentPrompt (lit "Hello") two_chats) eq_refl)
    as [_ [_ [Hother _]]].
  apply Hother; [reflexivity|].
  apply eqb_neq. reflexivity.
Defined.

(** ** The request of a send *)

Lemma turnOf_userMessage (p : jsstring) (fm : option FileMetadata.t)
    (history : list Content.t) :
  GeminiService.requestContents history p fm
  = history ++ [turnOf (ChatMessage.mk user p fm)].
Proof.
  unfold GeminiService.requestContents, turnOf. simpl.
  destruct fm as [f|]; [|reflexivity].
  destruct (FileMetadata.base64Content f) as [data|]; [|reflexivity].
  destruct (truthy data); reflexivity.
Qed.

Lemma request_turns (now created : N) (st : State) :
  canSend st = true ->
  exists st0 loc,
    sendMessage_begin now created st = Begun st0 loc
    /\ request loc
       = map turnOf (ChatSession.messages (sessionFor now created st)
                     ++ [userMessageOf st]).
Proof.
  intros Hcan. rewrite (sendMessage_begin_eq now created st Hcan).
  do 2 eexists. split; [reflexivity|].
  unfold request, buildHistory. simpl.
  rewrite slice_drops_trailing_two, turnOf_userMessage, map_app.
  reflexivity.
Qed.

(** X14: the request of a send is the sequence of the turns of the
    messages of the session, in order, followed by the turn of the new
    user message, built exactly as the history builder will build it on
    later sends; the empty placeholder is not part of it. *)
Theorem request_is_turn_sequence (now created : N) (st : State) :
  canSend st = true ->
  exists st0 loc,
    sendMessage_begin now created st = Begun st0 loc
    /\ request loc
       = map turnOf (ChatSession.messages (sessionFor now created st))
         ++ [turnOf (ChatMessage.mk user (trim (currentPrompt st))
                                    (fileMetadata st))]
    /\ length (request loc)
       = length (ChatSession.messages (sessionFor now created st)) + 1.
Proof.
  intros Hcan.
  destruct (request_turns now created st Hcan) as [st0 [loc [Hbegin Hreq]]].
  exists st0, loc. split; [exact Hbegin|].
  rewrite Hreq, map_app. split; [reflexivity|].
  now rewrite length_app, length_map.
Qed.

Lemma request_is_turn_sequence_witness :
  canSend (run follow_ups with_file) = true
  /\ exists st0 loc,
      sendMessage_begin 1900 1900 (run follow_ups with_file) = Begun st0 loc
      /\ length (request loc) = 5.
Proof.
  split; [reflexivity|].
  destruct (request_is_turn_sequence 1900 1900 (run follow_ups with_file)
              eq_refl) as [st0 [loc [Hbegin [_ Hlen]]]].
  exists st0, loc. split; [exact Hbegin | exact Hlen].
Defined.

(** X15: on the session a send has settled, the request of the next send
    is the request of that send, followed by a "model" turn holding the
    text the placeholder settled with (the concatenation of what the
    texts of the chunks convert to, "undefined" for a chunk without text,
    or the apology when the stream threw) and by the turn of the new user
    message. *)
Theorem next_request_extends (now created now' created' : N)
    (stream : Stream) (st st' : State) :
  canSend st = true ->
  canSend st' = true ->
  activeSession st' = activeSession (sendMessage now created stream st) ->
  exists st0 loc st0' loc',
    sendMessage_begin now created st = Begun st0 loc
    /\ sendMessage_begin now' created' st' = Begun st0' loc'
    /\ request loc'
       = request loc
         ++ [Content.mk (lit "model")
               [TextPart
                  (if throws stream
                   then lit "Sorry, I encountered an error. Please try again."
                   else concat (map toString (fragments stream)))];
             turnOf (ChatMessage.mk user (trim (currentPrompt st'))
                                    (fileMetadata st'))].
Proof.
  intros Hcan Hcan' Hsame.
  destruct (request_turns now created st Hcan) as [st0 [loc [Hbegin Hreq]]].
  destruct (request_turns now' created' st' Hcan')
    as [st0' [loc' [Hbegin' Hreq']]].
  exists st0, loc, st0', loc'. split; [exact Hbegin|]. split; [exact Hbegin'|].
  rewrite Hreq', Hreq. unfold sessionFor at 1.
  rewrite Hsame, (sendMessage_active now created stream st Hcan).
  unfold settledSession, settledText, userMessageOf, apology. simpl.
  rewrite !map_app, <- !app_assoc. reflexivity.
Qed.

Lemma next_request_extends_witness :
  canSend hello = true
  /\ canSend (set_currentPrompt (lit "again")
                (sendMessage 1700 1700 (mkStream [Some (lit "Hi")] true) hello))
     = true
  /\ exists st0 loc st0' loc',
      sendMessage_begin 1700 1700 hello = Begun st0 loc
      /\ sendMessage_begin 1800 1800
           (set_currentPrompt (lit "again")
              (sendMessage 1700 1700 (mkStream [Some (lit "Hi")] true) hello))
         = Begun st0' loc'
      /\ request loc'
         = request loc
           ++ [Content.mk (lit "model")
                 [TextPart
                    (lit "Sorry, I encountered an error. Please try again.")];
               Content.mk (lit "user") [TextPart (lit "again")]].
Proof.
  split; [reflexivity|]. split; [reflexivity|].
  exact (next_request_extends 1700 1700 1800 1800
           (mkStream [Some (lit "Hi")] true) hello
           (set_currentPrompt (lit "again")
              (sendMessage 1700 1700 (mkStream [Some (lit "Hi")] true) hello))
           eq_refl eq_refl eq_refl).
Defined.

(** ** What every reachable state keeps *)

Lemma Paired_app (l1 l2 : list ChatMessage.t) :
  Paired l1 -> Paired l2 -> Paired (l1 ++ l2).
Proof.
  intros H1 H2. induction H1 as [|u a rest Hu Ha _ IH]; simpl;
    [exact H2 | now constructor].
Qed.

Lemma Paired_even (l : list ChatMessage.t) :
  Paired l -> Nat.even (length l) = true.
Proof.
  intros H. induction H as [|u a rest _ _ _ IH]; simpl; [reflexivity | exact IH].
Qed.

Lemma handleFileChange_withinLimit (files : list File.t) (st : State) :
  withinLimit (fileMetadata st) ->
  withinLimit (fileMetadata (handleFileChange files st)).
Proof.
  intros Hst. unfold handleFileChange, processFile.
  destruct files as [|file others]; [exact Hst|].
  destruct (MAX_FILE_SIZE <? File.size file)%N eqn:Hsize; [exact Hst|].
  apply N.ltb_ge in Hsize.
  destruct (fileToBase64 file); [|exact Hst].
  destruct (startsWith (File.type file) (lit "text/"));
    [destruct (File.text file); [exact Hsize | exact Hst]|].
  destruct (eqb (File.type file) (lit "application/pdf")); [|exact Hsize].
  destruct (File.numPages file); exact Hsize.
Qed.

Lemma sessionFor_in_base (now created : N) (st : State) :
  In (sessionFor now created st) (baseSessions now created st).
Proof.
  destruct (find_base now created st) as [Hfind _].
  now apply find_some in Hfind.
Qed.

Lemma baseSessions_ok (now created : N) (st : State) :
  Forall sessionOk (chatSessions st) ->
  Forall sessionOk (baseSessions now created st).
Proof.
  intros Hst. unfold baseSessions.
  destruct (activeSession st); [exact Hst|].
  constructor; [|exact Hst]. split; constructor.
Qed.

Lemma settledSession_ok (now created : N) (stream : Stream) (st : State) :
  storeOk st -> sessionOk (settledSession now created stream st).
Proof.
  intros [Hsessions Hmeta].
  assert (Hfor : sessionOk (sessionFor now created st)).
  { pose proof (baseSessions_ok now created st Hsessions) as Hbase.
    rewrite Forall_forall in Hbase. apply Hbase, sessionFor_in_base. }
  destruct Hfor as [Hpaired Hmsgs].
  unfold sessionOk, settledSession. simpl. split.
  - apply Paired_app; [exact Hpaired|].
    now repeat constructor.
  - apply Forall_app. split; [exact Hmsgs|].
    repeat constructor; simpl; try exact Hmeta; discriminate.
Qed.

Lemma sendMessage_storeOk (now created : N) (stream : Stream) (st : State) :
  storeOk st -> storeOk (sendMessage now created stream st).
Proof.
  intros Hst. destruct (canSend st) eqn:Hcan.
  - split.
    + rewrite (sendMessage_sessions now created stream st Hcan).
      pose proof (settledSession_ok now created stream st Hst) as Hsettled.
      pose proof (baseSessions_ok now created st (proj1 Hst)) as Hbase.
      unfold writeBack. rewrite Forall_forall in Hbase |- *.
      intros s Hs. apply in_map_iff in Hs as [x [Hx Hin]]. subst s.
      destruct (eqb _ _); [exact Hsettled | now apply Hbase].
    + destruct (sendMessage_spec now created stream st Hcan)
        as [sessions' [Heq _]].
      rewrite Heq. exact I.
  - now rewrite (sendMessage_skipped now created stream st Hcan).
Qed.

Lemma act_storeOk (a : Action) (st : State) :
  storeOk st -> storeOk (act a st).
Proof.
  intros Hst. pose proof Hst as [Hsessions Hmeta].
  destruct a as [now created|id|id|[value|files| |now created stream]]; simpl.
  - split; [|exact I]. constructor; [|exact Hsessions]. split; constructor.
  - exact Hst.
  - split.
    + rewrite deleteChat_sessions. rewrite Forall_forall in Hsessions |- *.
      intros s Hs. apply filter_In in Hs as [Hs _]. now apply Hsessions.
    + destruct (deleteChat_frame id st) as [_ [_ [_ [Hm _]]]]. now rewrite Hm.
  - exact Hst.
  - split.
    + now rewrite (proj1 (handleFileChange_frame files st)).
    + now apply handleFileChange_withinLimit.
  - split; [exact Hsessions | exact I].
  - now apply sendMessage_storeOk.
Qed.

Lemma reach_storeOk (actions : list Action) :
  forall st, storeOk st -> storeOk (reach actions st).
Proof.
  induction actions as [|a actions IH]; intros st Hst; [exact Hst|].
  simpl. apply IH. now apply act_storeOk.
Qed.

Lemma initial_storeOk : storeOk initial.
Proof. split; [constructor | exact I]. Qed.

(** X16: in every state the component reaches from its initial state,
    by any sequence of sidebar operations, input events and sends, every
    session's messages are a sequence of exchanges, a user message
    followed by an ai message, so their number is even, and no ai message
    carries file metadata. *)
Theorem reach_sessions_are_exchanges (actions : list Action) :
  Forall (fun s =>
            Paired (ChatSession.messages s)
            /\ Nat.even (length (ChatSession.messages s)) = true
            /\ Forall (fun m => ChatMessage.role m = ai ->
                                ChatMessage.fileInfo m = None)
                      (ChatSession.messages s))
         (chatSessions (reach actions initial)).
Proof.
  destruct (reach_storeOk actions initial initial_storeOk) as [Hsessions _].
  rewrite Forall_forall in Hsessions |- *. intros s Hs.
  destruct (Hsessions s Hs) as [Hpaired Hmsgs].
  split; [exact Hpaired|]. split; [now apply Paired_even|].
  rewrite Forall_forall in Hmsgs |- *. intros m Hm. exact (proj2 (Hmsgs m Hm)).
Qed.

(** X17: in every state the component reaches from its initial state, the
    stored file metadata and the file metadata of every message of every
    session have a size of at most 5 MiB. *)
Theorem reach_files_within_limit (actions : list Action) :
  match fileMetadata (reach actions initial) with
  | Some m => (FileMetadata.size m <= 5 * 1024 * 1024)%N
  | None => True
  end
  /\ Forall (fun s =>
               Forall (fun msg =>
                         match ChatMessage.fileInfo msg with
                         | Some m => (FileMetadata.size m <= 5 * 1024 * 1024)%N
                         | None => True
                         end)
                      (ChatSession.messages s))
            (chatSessions (reach actions initial)).
Proof.
  destruct (reach_storeOk actions initial initial_storeOk) as [Hsessions Hmeta].
  split; [exact Hmeta|].
  rewrite Forall_forall in Hsessions |- *. intros s Hs.
  destruct (Hsessions s Hs) as [_ Hmsgs].
  rewrite Forall_forall in Hmsgs |- *. intros m Hm. exact (proj1 (Hmsgs m Hm)).
Qed.




(** ** Streaming, chunk by chunk *)

(** X19: while the stream is consumed the store shows the text received
    so far: after any number of chunks the active session holds its
    earlier messages, the user message and the placeholder whose text is
    the concatenation of what the texts of the chunks received up to then
    convert to (the fragment, or "undefined" for a chunk without text),
    with loading still set and no error; consuming the rest from there is
    consuming the whole stream. *)
Theorem streaming_is_incremental (now created : N) (st : State)
    (received rest : list (option jsstring)) :
  canSend st = true ->
  exists st0 loc s,
    sendMessage_begin now created st = Begun st0 loc
    /\ activeSession (fst (consume received (st0, loc))) = Some s
    /\ ChatSession.messages s
       = ChatSession.messages (sessionFor now created st)
         ++ [ChatMessage.mk user (trim (currentPrompt st)) (fileMetadata st);
             ChatMessage.mk ai (concat (map toString received)) None]
    /\ isLoading (fst (consume received (st0, loc))) = true
    /\ error (fst (consume received (st0, loc))) = None
    /\ consume (received ++ rest) (st0, loc)
       = consume rest (consume received (st0, loc)).
Proof.
  intros Hcan.
  destruct (find_base now created st) as [Hfind [Htruthy _]].
  pose (st0 := mkState (writeBack (begunSession now created st)
                                  (baseSessions now created st))
                       (Some (ChatSession.id (sessionFor now created st)))
                       true [] None None None).
  pose (loc0 := mkSending (begunSession now created st) placeholder
                          (trim (currentPrompt st)) (fileMetadata st)).
  exists st0, loc0.
  assert (Hfind0 :
    find (fun x => eqb (ChatSession.id x)
                       (ChatSession.id (currentSession loc0)))
         (chatSessions st0) = Some (currentSession loc0)).
  { now apply find_writeBack with (s := sessionFor now created st). }
  assert (Hmsgs :
    ChatSession.messages (currentSession loc0)
    = (ChatSession.messages (sessionFor now created st) ++ [userMessageOf st])
      ++ [aiMessage loc0]).
  { simpl. now rewrite <- app_assoc. }
  destruct (consume_spec received st0 loc0 _ Hfind0 Hmsgs)
    as [sessions1 [Hrun Hfind1]].
  eexists. split; [exact (sendMessage_begin_eq now created st Hcan)|].
  rewrite Hrun. simpl fst.
  split; [|split; [|split; [reflexivity|split; [reflexivity|]]]].
  - unfold activeSession. simpl. simpl in Hfind1.
    rewrite Htruthy. simpl. exact Hfind1.
  - simpl. now rewrite <- app_assoc.
  - rewrite <- Hrun. unfold consume. apply fold_left_app.
Qed.

Lemma streaming_is_incremental_witness :
  canSend hello = true
  /\ exists st0 loc s,
      sendMessage_begin 1700 1700 hello = Begun st0 loc
      /\ activeSession (fst (consume [Some (lit "Hi"); None] (st0, loc))) = Some s
      /\ ChatSession.messages s
         = [ChatMessage.mk user (lit "Hello") None;
            ChatMessage.mk ai (lit "Hiundefined") None].
Proof.
  split; [reflexivity|].
  destruct (streaming_is_incremental 1700 1700 hello [Some (lit "Hi"); None]
              [Some (lit " there")]
              eq_refl) as [st0 [loc [s [Hbegin [Hact [Hmsgs _]]]]]].
  exists st0, loc, s. split; [exact Hbegin|]. split; [exact Hact|].
  exact Hmsgs.
Defined.

(** ** Messages are only appended *)

(** X20: whatever prompts, file choices and sends follow on an active
    session, it stays the active session under the same id and its
    message list only grows at the end: the messages it had stay in
    place, unchanged. *)
Theorem messages_only_grow (events : list Event) (st : State)
    (s : ChatSession.t) :
  activeSession st = Some s ->
  exists s' added,
    activeSession (run events st) = Some s'
    /\ ChatSession.id s' = ChatSession.id s
    /\ ChatSession.messages s' = ChatSession.messages s ++ added
    /\ forall i m,
        nth_error (ChatSession.messages s) i = Some m ->
        nth_error (ChatSession.messages s') i = Some m.
Proof.
  intros Hact.
  destruct (run_keeps_session events st s Hact)
    as [s' [added [Hact' [Hid [Hmsgs _]]]]].
  exists s', added. split; [exact Hact'|]. split; [exact Hid|].
  split; [exact Hmsgs|].
  intros i m Hnth. rewrite Hmsgs, nth_error_app1; [exact Hnth|].
  apply nth_error_Some. rewrite Hnth. discriminate.
Qed.

Lemma messages_only_grow_witness :
  activeSession with_file
  = Some (ChatSession.mk (lit "chat_1700") (lit "Summarise this")
            [notes_message; ChatMessage.mk ai (lit "Sure") None] 1700)
  /\ exists s',
      activeSession (run follow_ups with_file) = Some s'
      /\ nth_error (ChatSession.messages s') 0 = Some notes_message.
Proof.
  split; [reflexivity|].
  destruct (messages_only_grow follow_ups with_file
              (ChatSession.mk (lit "chat_1700") (lit "Summarise this")
                 [notes_message; ChatMessage.mk ai (lit "Sure") None] 1700)
              eq_refl) as [s' [added [Hact [_ [_ Hkeep]]]]].
  exists s'. split; [exact Hact|]. apply Hkeep. reflexivity.
Defined.
